(** * screen_brightness_control.windows: monitor discovery and brightness dispatch

    A shallow embedding of [screen_brightness_control/windows.py]: the two
    channel classes [WMI] and [VCP], the merge of their monitor lists
    ([list_monitors_info]) and the top-level dispatch
    ([__set_and_get_brightness], [set_brightness], [get_brightness]).

    Python code runs in a state-and-exception monad.  The operating system
    (the WMI service, win32api, user32/dxva2) is a record of answers, [World];
    what the code changes is the process-wide cache, and the calls it makes
    that act on the hardware are recorded in an event log. *)

From Stdlib Require Import ZArith String Ascii List HexString Lia.
From stdpp Require Import base gmap strings list.

Local Open Scope Z_scope.

(** ** Python values and exceptions *)

(** The exception classes the module can see.  [type(e).__name__] is
    [kind_name]. [WinErrorExn] is whatever [raise WinError(...)] raises,
    [CacheMiss] is the signal of [__cache__.get] on an absent entry. *)
Inductive ExnKind :=
  | LookupError | TypeError | IndexError | ValueError | NameError | KeyError
  | UnicodeDecodeError | AttributeError | WinErrorExn | x_wmi | CacheMiss
  | Exception_.

Record exn := mkExn { exn_kind : ExnKind; exn_msg : string }.

Definition kind_name (k : ExnKind) : string :=
  match k with
  | LookupError => "LookupError" | TypeError => "TypeError"
  | IndexError => "IndexError" | ValueError => "ValueError"
  | NameError => "NameError" | KeyError => "KeyError"
  | UnicodeDecodeError => "UnicodeDecodeError"
  | AttributeError => "AttributeError" | WinErrorExn => "OSError"
  | x_wmi => "x_wmi" | CacheMiss => "CacheMiss" | Exception_ => "Exception"
  end.

Inductive result (A : Type) :=
  | Ok (a : A)
  | Raise (e : exn).
Arguments Ok {A} a.
Arguments Raise {A} e.

(** What a brightness call returns: [None], a bool, an int or a list. *)
#[warnings="-register-all"]
Inductive pyval :=
  | PNone
  | PBool (b : bool)
  | PInt (z : Z)
  | PList (l : list pyval).

(** [v == None] *)
Definition is_None (v : pyval) : bool :=
  match v with PNone => true | _ => false end.

(** Truth value of an object, as [not x] and [if x] use it. *)
Definition truthy (v : pyval) : bool :=
  match v with
  | PNone => false
  | PBool b => b
  | PInt z => negb (z =? 0)
  | PList l => match l with [] => false | _ => true end
  end.

(** The [display] argument: absent, an int, a str, or anything else. *)
Inductive Display :=
  | DNone
  | DInt (i : Z)
  | DStr (s : string)
  | DOther.

(** ** The str and bytes methods the module uses *)

Module Py.

(** [s.split(sep)] for a one-character separator. *)
Fixpoint split (sep : ascii) (s : string) : list string :=
  match s with
  | EmptyString => [EmptyString]
  | String c t =>
      let r := split sep t in
      if Ascii.eqb c sep then EmptyString :: r
      else match r with
           | [] => [String c EmptyString]
           | w :: ws => String c w :: ws
           end
  end.

(** [s[:n]] *)
Fixpoint slice_to (n : nat) (s : string) : string :=
  match n, s with
  | S k, String c t => String c (slice_to k t)
  | _, _ => EmptyString
  end.

(** [s.replace(old, '', count)] for a non-empty [old]; [cnt = None] is
    the call without a count.  [skip] counts the characters of a match
    still to be dropped. *)
Fixpoint remove_aux (old : string) (cnt : option nat) (skip : nat)
    (s : string) : string :=
  match s with
  | EmptyString => EmptyString
  | String c t =>
      match skip with
      | S k => remove_aux old cnt k t
      | O =>
          let allowed := match cnt with Some O => false | _ => true end in
          if allowed && String.prefix old s
          then remove_aux old (Nat.pred <$> cnt) (Nat.pred (String.length old)) t
          else String c (remove_aux old cnt O t)
      end
  end.

Definition remove (old : string) (cnt : option nat) (s : string) : string :=
  remove_aux old cnt O s.

Definition is_upper (c : ascii) : bool :=
  let n := nat_of_ascii c in (65 <=? n)%nat && (n <=? 90)%nat.
Definition is_lower (c : ascii) : bool :=
  let n := nat_of_ascii c in (97 <=? n)%nat && (n <=? 122)%nat.
Definition lower_char (c : ascii) : ascii :=
  if is_upper c then ascii_of_nat (nat_of_ascii c + 32) else c.
Definition upper_char (c : ascii) : ascii :=
  if is_lower c then ascii_of_nat (nat_of_ascii c - 32) else c.

(** [s.lower()] and [s.capitalize()]; a str is held as its UTF-8 bytes and
    the case mapping is the one of the ASCII letters. *)
Fixpoint lower (s : string) : string :=
  match s with
  | EmptyString => EmptyString
  | String c t => String (lower_char c) (lower t)
  end.

Definition capitalize (s : string) : string :=
  match s with
  | EmptyString => EmptyString
  | String c t => String (upper_char c) (lower t)
  end.

(** [''.join(l)] *)
Definition join (l : list string) : string :=
  foldr String.append EmptyString l.

(** [str(hex(i)).replace('0x','')] *)
Definition hex_digits (i : Z) : string :=
  remove "0x" None (HexString.of_Z i).

Definition in_range (lo hi b : Z) : bool := (lo <=? b) && (b <=? hi).
Definition cont (b : Z) : bool := in_range 128 191 b.

(** Well-formed UTF-8, as the strict decoder of [bytes.decode()] accepts. *)
Fixpoint utf8_valid (l : list Z) : bool :=
  match l with
  | [] => true
  | b0 :: t =>
      if in_range 0 127 b0 then utf8_valid t
      else if in_range 194 223 b0 then
        match t with
        | b1 :: t1 => cont b1 && utf8_valid t1
        | _ => false
        end
      else if in_range 224 239 b0 then
        match t with
        | b1 :: b2 :: t2 =>
            (if b0 =? 224 then in_range 160 191 b1
             else if b0 =? 237 then in_range 128 159 b1
             else cont b1)
            && cont b2 && utf8_valid t2
        | _ => false
        end
      else if in_range 240 244 b0 then
        match t with
        | b1 :: b2 :: b3 :: t3 =>
            (if b0 =? 240 then in_range 144 191 b1
             else if b0 =? 244 then in_range 128 143 b1
             else cont b1)
            && cont b2 && cont b3 && utf8_valid t3
        | _ => false
        end
      else false
  end.

Definition string_of_bytes (l : list Z) : string :=
  foldr (fun b s => String (ascii_of_N (Z.to_N b)) s) EmptyString l.

(** [bytes(x).decode()]: [x] is an array of ints or [None]. *)
Definition bytes_decode (x : option (list Z)) : result string :=
  match x with
  | None => Raise (mkExn TypeError "cannot convert 'NoneType' object to bytes")
  | Some l =>
      if forallb (in_range 0 255) l then
        if utf8_valid l then Ok (string_of_bytes l)
        else Raise (mkExn UnicodeDecodeError "'utf-8' codec can't decode bytes")
      else Raise (mkExn ValueError "bytes must be in range(0, 256)")
  end.

(** [l[i]] for [i >= 0] *)
Definition index {A} (l : list A) (i : nat) : result A :=
  match l !! i with
  | Some x => Ok x
  | None => Raise (mkExn IndexError "list index out of range")
  end.

(** [l[i]] for an int [i]: a negative one counts from the end. *)
Definition index_Z {A} (l : list A) (i : Z) : result A :=
  if 0 <=? i then index l (Z.to_nat i)
  else if - Z.of_nat (length l) <=? i then index l (Z.to_nat (Z.of_nat (length l) + i))
  else Raise (mkExn IndexError "list index out of range").

(** [l.index(x)] *)
Fixpoint list_index (x : string) (l : list string) : result nat :=
  match l with
  | [] => Raise (mkExn ValueError "x is not in list")
  | y :: t =>
      if String.eqb x y then Ok O
      else match list_index x t with
           | Ok n => Ok (S n)
           | Raise e => Raise e
           end
  end.

(** Stable insertion by key, for [sorted(l, key=...)]. *)
Fixpoint insert_by_key {A} (k : nat) (x : A) (l : list (nat * A)) : list (nat * A) :=
  match l with
  | [] => [(k, x)]
  | (k', y) :: t =>
      if (k <? k')%nat then (k, x) :: l else (k', y) :: insert_by_key k x t
  end.

Definition sort_keyed {A} (l : list (nat * A)) : list A :=
  snd <$> foldl (fun acc p => insert_by_key (fst p) (snd p) acc) [] l.

End Py.

(** ** Monitor records *)

(** The class object held in a record's ['method'] field. *)
Inductive Method := WMI_cls | VCP_cls.

(** [cls.__name__] *)
Definition method_name (m : Method) : string :=
  match m with WMI_cls => "WMI" | VCP_cls => "VCP" end.

#[global] Instance Method_eq_dec : EqDecision Method.
Proof. solve_decision. Defined.

(** The dict built by [get_display_info] (lines 72 and 300). *)
Record Monitor := mkMonitor {
  name : string;
  model : string;
  model_name : option string;
  serial : string;
  manufacturer : option string;
  manufacturer_id : option string;
  index : nat;
  method : Method;
  edid : option string
}.

(** [f'{x}'] for a value that is a str or [None]. *)
Definition fmt_opt (x : option string) : string :=
  match x with Some s => s | None => "None" end.

(** ** The operating system *)

(** Objects returned by the WMI queries. *)
Record WmiMonitorBrightnessObj := {
  wb_InstanceName : string;
  CurrentBrightness : Z
}.

Record WmiMonitorBrightnessMethodsObj := {
  wbm_InstanceName : string;
  (** the outcome of [WmiSetBrightness(value, 0)] *)
  WmiSetBrightness : Z -> result unit
}.

Record WmiMonitorDescriptorMethodsObj := {
  wd_InstanceName : string;
  (** first component of the tuple [WmiGetMonitorRawEEdidV1Block(0)] returns *)
  WmiGetMonitorRawEEdidV1Block : result (list Z)
}.

Record WmiMonitorIDObj := {
  wi_InstanceName : string;
  SerialNumberID : option (list Z);
  UserFriendlyName : option (list Z)
}.

Record World := {
  (** [threading.current_thread() == threading.main_thread()] *)
  in_main_thread : bool;
  (** [wmi.WMI(namespace='wmi')] *)
  wmi_WMI : result unit;
  WmiMonitorBrightness : result (list WmiMonitorBrightnessObj);
  WmiMonitorBrightnessMethods : result (list WmiMonitorBrightnessMethodsObj);
  WmiMonitorDescriptorMethods : result (list WmiMonitorDescriptorMethodsObj);
  WmiMonitorID : result (list WmiMonitorIDObj);
  (** [win32api.EnumDisplayMonitors()], the handle [i[0]] of each entry *)
  win32api_EnumDisplayMonitors : result (list Z);
  (** [win32api.GetMonitorInfo(h)['Device']] *)
  win32api_GetMonitorInfo : Z -> result string;
  (** [win32api.EnumDisplayDevices(dev, 0, 1).DeviceID] *)
  win32api_EnumDisplayDevices : string -> result string;
  (** [windll.user32.EnumDisplayMonitors]: the handles passed to the
      callback, or [None] when the call returns 0 *)
  user32_EnumDisplayMonitors : option (list Z);
  (** [windll.dxva2.GetNumberOfPhysicalMonitorsFromHMONITOR]: the count
      written, or [None] when the call returns 0 *)
  GetNumberOfPhysicalMonitorsFromHMONITOR : Z -> option nat;
  (** [windll.dxva2.GetPhysicalMonitorsFromHMONITOR]: the handles written
      into the array, or [None] when the call returns 0 *)
  GetPhysicalMonitorsFromHMONITOR : Z -> nat -> option (list Z);
  (** [windll.dxva2.GetVCPFeatureAndVCPFeatureReply(h, 0x10, ...)]: the
      current value written, or [None] when the call returns 0 *)
  GetVCPFeatureAndVCPFeatureReply : Z -> option Z;
  (** Modelled from the spec: [_monitor_brand_lookup] lives in the package's
      [__init__] and is not part of this file.  "lookup(code_or_name) ->
      (code, full_name), fails with LookupError-equivalent when code/name
      unknown": [None] is that failure. *)
  _monitor_brand_lookup : string -> option (string * string)
}.

(** Calls that act on the system. *)
Inductive Event :=
  | CoInitialize
  | WmiSetBrightness_call (instance : string) (value : Z)
  | SetVCPFeature (handle : Z) (code : Z) (value : Z)
  | DestroyPhysicalMonitor (handle : Z).

#[global] Instance Event_eq_dec : EqDecision Event.
Proof. solve_decision. Defined.

(** ** Process state: the cache and the event log *)

Inductive CacheVal :=
  | CInstance
  | CInfo (l : list Monitor)
  | CBrightness (v : Z).

Record CacheEntry := { ce_value : CacheVal; ce_expires : option Z }.

(** Keyword parameters given to [__cache__.get] and [__cache__.store]:
    only [method=...] occurs. *)
Definition Params := list (string * option string).

Record State := mkState {
  cache : gmap (string * Params) CacheEntry;
  (** the clock reading, in milliseconds *)
  clock : Z;
  events : list Event
}.

Definition init_state : State := mkState ∅ 0 [].

(** ** The monad of Python code *)

Definition M (A : Type) : Type := State -> result A * State.

Definition ret {A} (a : A) : M A := fun s => (Ok a, s).

Definition bind {A B} (m : M A) (k : A -> M B) : M B :=
  fun s => match m s with
           | (Ok a, s') => k a s'
           | (Raise e, s') => (Raise e, s')
           end.

Definition raise {A} (e : exn) : M A := fun s => (Raise e, s).

Definition lift {A} (r : result A) : M A := fun s => (r, s).

(** [try: m  except Exception as e: h e]; a bare [except:] is the same
    with a handler that ignores [e]. *)
Definition try_except {A} (m : M A) (h : exn -> M A) : M A :=
  fun s => match m s with
           | (Raise e, s') => h e s'
           | r => r
           end.

Definition emit (ev : Event) : M unit :=
  fun s => (Ok tt, mkState (cache s) (clock s) (events s ++ [ev])).

Declare Scope py_scope.
Delimit Scope py_scope with py.
Notation "'let*' x ':=' m 'in' k" := (bind m (fun x => k))
  (at level 10, x name, m at level 200, k at level 200, only parsing) : py_scope.
Local Open Scope py_scope.

(** [[f x for x in l]] where [f] may raise. *)
Fixpoint mapM {A B} (f : A -> M B) (l : list A) : M (list B) :=
  match l with
  | [] => ret []
  | x :: t => let* y := f x in let* ys := mapM f t in ret (y :: ys)
  end.

(** ** The identity cache *)

(** Modelled from the spec: [__cache__] is an object of the package's
    [__init__], not part of this file.  "get(key, params...) / store(key,
    value, expires: seconds = infinity): process-wide key-value store with
    per-entry optional expiry; get on a missing or expired key signals a
    cache-miss condition".  An entry is found under its key and the
    parameters it was stored with.  Each key of the module is stored with
    values of one Python type only; an entry of another type does not
    occur and reads as a miss. *)
Definition cache_lookup (key : string) (params : Params) (s : State)
    : option CacheVal :=
  match cache s !! (key, params) with
  | Some e =>
      match ce_expires e with
      | Some t => if clock s <? t then Some (ce_value e) else None
      | None => Some (ce_value e)
      end
  | None => None
  end.

Definition cache_miss {A} : M A := raise (mkExn CacheMiss "cache miss").

Definition __cache__get_instance (key : string) : M unit :=
  fun s => match cache_lookup key [] s with
           | Some CInstance => (Ok tt, s)
           | _ => cache_miss s
           end.

Definition __cache__get_info (key : string) (params : Params) : M (list Monitor) :=
  fun s => match cache_lookup key params s with
           | Some (CInfo l) => (Ok l, s)
           | _ => cache_miss s
           end.

Definition __cache__get_brightness (key : string) : M Z :=
  fun s => match cache_lookup key [] s with
           | Some (CBrightness v) => (Ok v, s)
           | _ => cache_miss s
           end.

(** [expires] is in milliseconds; [None] is the default, no expiry. *)
Definition __cache__store (key : string) (v : CacheVal) (expires : option Z)
    (params : Params) : M unit :=
  fun s => (Ok tt,
            mkState (<[(key, params) := {| ce_value := v;
                                           ce_expires := Z.add (clock s) <$> expires |}]> (cache s))
                    (clock s) (events s)).

(** ** Matching a query against a list of records *)

(** [cls.__name__.lower() == method.lower()] *)
Definition method_is (c : string) (m : Method) : bool :=
  String.eqb (Py.lower (method_name m)) (Py.lower c).

Definition restrict (constraint : option string) (haystack : list Monitor)
    : list Monitor :=
  match constraint with
  | None => haystack
  | Some c => List.filter (fun m => method_is c (method m)) haystack
  end.

Definition field_matches (s : string) (f : option string) : bool :=
  match f with
  | Some v => String.eqb (Py.lower v) (Py.lower s)
  | None => false
  end.

(** The fields a string query is tried on, in priority order. *)
Definition query_fields : list (Monitor -> option string) :=
  [Some ∘ serial; Some ∘ name; Some ∘ model; edid].

Fixpoint match_fields (s : string) (haystack : list Monitor)
    (fields : list (Monitor -> option string)) : result (list Monitor) :=
  match fields with
  | [] => Raise (mkExn LookupError "no monitor matches the query")
  | f :: rest =>
      match List.filter (fun m => field_matches s (f m)) haystack with
      | [] => match_fields s haystack rest
      | found => Ok found
      end
  end.

(** Modelled from the spec: [filter_monitors] lives in the package's
    [__init__] and is not part of this file; this is its work on a given
    haystack, section 4.4: "query = none: return haystack unchanged
    (optionally restricted to channel_constraint); query = integer i: return
    the single record at position i in haystack (filtered by
    channel_constraint first, preserving order), out-of-range signals
    IndexError; query = string s: case-insensitive exact match against, in
    priority order: serial, name, model, identity_block; first field that
    matches any record wins; return ALL records matching on that field; no
    match across all fields signals LookupError; query of any other type
    signals TypeError".  The integer is a non-negative position. *)
Definition filter_haystack (display : Display) (haystack : list Monitor)
    (constraint : option string) : result (list Monitor) :=
  let hay := restrict constraint haystack in
  match display with
  | DNone => Ok hay
  | DInt i =>
      if 0 <=? i then
        match hay !! Z.to_nat i with
        | Some m => Ok [m]
        | None => Raise (mkExn IndexError "list index out of range")
        end
      else Raise (mkExn IndexError "list index out of range")
  | DStr s => match_fields s hay query_fields
  | DOther => Raise (mkExn TypeError "display kwarg must be int or str")
  end.

(** What [VCP.get_display_info] returns: one dict or a list of dicts. *)
Inductive DictOrList :=
  | OneDict (m : Monitor)
  | DictList (l : list Monitor).

(** ** Enumeration *)

Section Enumeration.

Variable w : World.

(** lines 6-16 *)
Definition _wmi_init : M unit :=
  try_except (__cache__get_instance "wmi_instance")
    (fun _ =>
       let* _ := (if in_main_thread w then ret tt else emit CoInitialize) in
       let* instance := lift (wmi_WMI w) in
       let* _ := __cache__store "wmi_instance" CInstance None [] in
       ret instance).

(** [try: descriptors = {i.InstanceName: i.WmiGetMonitorRawEEdidV1Block(0)
    for i in wmi.WmiMonitorDescriptorMethods()}  except: pass] (lines 56-57
    and 285-286).  [None]: the name [descriptors] was never bound. *)
Definition get_descriptors : option (gmap string (list Z)) :=
  match WmiMonitorDescriptorMethods w with
  | Raise _ => None
  | Ok objs =>
      foldl (fun acc o =>
               match acc, WmiGetMonitorRawEEdidV1Block o with
               | Some d, Ok block => Some (<[wd_InstanceName o := block]> d)
               | _, _ => None
               end)
            (Some ∅) objs
  end.

(** [try: edid = ''.join([str(hex(i)).replace('0x','') for i in
    descriptors[InstanceName][0]])  except: edid = None] *)
Definition read_edid (descriptors : option (gmap string (list Z)))
    (instance_name : string) : option string :=
  match descriptors with
  | None => None
  | Some d =>
      match d !! instance_name with
      | Some block => Some (Py.join (Py.hex_digits <$> block))
      | None => None
      end
  end.

(** The loop of lines 58-74.  An exception in the body ([instance[1]] out
    of range) leaves the loop for the handler of line 75, which passes:
    [info] keeps what was appended so far. *)
Fixpoint wmi_loop (descriptors : option (gmap string (list Z)))
    (monitors : list WmiMonitorBrightnessObj) (info : list Monitor)
    (a : nat) : list Monitor :=
  match monitors with
  | [] => info
  | m :: rest =>
      let instance := Py.split "\" (wb_InstanceName m) in
      let serial := List.last instance EmptyString in
      match Py.index instance 1 with
      | Raise _ => info
      | Ok model =>
          let man_id := Py.slice_to 3 model in
          let '(man_id, manufacturer) :=
            match _monitor_brand_lookup w (Py.slice_to 3 model) with
            | Some (code, full) => (code, Some full)
            | None => (man_id, None)
            end in
          let edid := read_edid descriptors (wb_InstanceName m) in
          let tmp := mkMonitor (fmt_opt manufacturer +:+ " " +:+ model) model
                       None serial manufacturer (Some man_id) a WMI_cls edid in
          wmi_loop descriptors rest (info ++ [tmp]) (S a)
      end
  end.

(** lines 51-76: what is computed on a cache miss *)
Definition WMI_enumerate : M (list Monitor) :=
  try_except
    (let* _ := _wmi_init in
     let* monitors := lift (WmiMonitorBrightness w) in
     ret (wmi_loop get_descriptors monitors [] O))
    (fun _ => ret []).

(** [WMI.get_display_info(display)], lines 48-81 *)
Definition WMI_get_display_info (display : Display) : M (list Monitor) :=
  let* info :=
    try_except (__cache__get_info "wmi_monitor_info" [])
      (fun _ =>
         let* info := WMI_enumerate in
         let* _ := __cache__store "wmi_monitor_info" (CInfo info) None [] in
         ret info) in
  match display with
  | DNone => ret info
  | _ =>
      let* found := lift (filter_haystack display info (Some "wmi")) in
      let indexes := index <$> found in
      mapM (fun i => lift (Py.index info i)) indexes
  end.

(** [WMI.get_display_names()] *)
Definition WMI_get_display_names : M (list string) :=
  let* info := WMI_get_display_info DNone in ret (name <$> info).

Definition NUL : string := String "000"%char EmptyString.

(** The body of the loop of lines 288-304; [Raise] is any exception in it. *)
Definition vcp_record (descriptors : option (gmap string (list Z)))
    (monitor : WmiMonitorIDObj) (a : nat) : result Monitor :=
  match Py.bytes_decode (SerialNumberID monitor) with
  | Raise e => Raise e
  | Ok serial_raw =>
      let serial := Py.remove NUL None serial_raw in
      match Py.bytes_decode (UserFriendlyName monitor) with
      | Raise e => Raise e
      | Ok friendly =>
          match Py.split " " (Py.remove NUL None friendly) with
          | [manufacturer; model] =>
              let manufacturer := Py.capitalize (Py.lower manufacturer) in
              let '(man_id, manufacturer) :=
                match _monitor_brand_lookup w manufacturer with
                | Some (code, full) => (Some code, full)
                | None => (None, manufacturer)
                end in
              let edid := read_edid descriptors (wi_InstanceName monitor) in
              Ok (mkMonitor (manufacturer +:+ " " +:+ model) model None serial
                    (Some manufacturer) man_id a VCP_cls edid)
          | _ => Raise (mkExn ValueError "wrong number of values to unpack")
          end
      end
  end.

Fixpoint vcp_loop (descriptors : option (gmap string (list Z)))
    (monitors : list WmiMonitorIDObj) (info : list Monitor) (a : nat)
    : list Monitor :=
  match monitors with
  | [] => info
  | monitor :: rest =>
      match vcp_record descriptors monitor a with
      | Ok tmp => vcp_loop descriptors rest (info ++ [tmp]) (S a)
      | Raise _ => vcp_loop descriptors rest info a
      end
  end.

(** lines 279-306: what is computed on a cache miss *)
Definition VCP_enumerate : M (list Monitor) :=
  try_except
    (let* handles := lift (win32api_EnumDisplayMonitors w) in
     let* monitors_sorted :=
       mapM (fun h =>
               let* device := lift (win32api_GetMonitorInfo w h) in
               let* device_id := lift (win32api_EnumDisplayDevices w device) in
               lift (Py.index (Py.split "#" device_id) 2)) handles in
     let* _ := _wmi_init in
     let* ids := lift (WmiMonitorID w) in
     let* keyed :=
       mapM (fun x =>
               let* part := lift (Py.index (Py.split "\" (Py.remove "_0" (Some 1%nat) (wi_InstanceName x))) 2) in
               let* k := lift (Py.list_index part monitors_sorted) in
               ret (k, x)) ids in
     let monitors := Py.sort_keyed keyed in
     ret (vcp_loop get_descriptors monitors [] O))
    (fun _ => ret []).

(** [VCP.get_display_info(display)], lines 276-314 *)
Definition VCP_get_display_info (display : Display) : M DictOrList :=
  let* info :=
    try_except (__cache__get_info "vcp_monitor_info" [])
      (fun _ =>
         let* info := VCP_enumerate in
         let* _ := __cache__store "vcp_monitor_info" (CInfo info) None [] in
         ret info) in
  match display with
  | DNone => ret (DictList info)
  | _ =>
      match filter_haystack display info (Some "vcp") with
      | Ok [one] => ret (OneDict one)
      | Ok found => ret (DictList found)
      | Raise _ => ret (DictList info)
      end
  end.

(** [VCP.get_display_names()] *)
Definition VCP_get_display_names : M (list string) :=
  let* r := VCP_get_display_info DNone in
  match r with
  | DictList info => ret (name <$> info)
  | OneDict _ => raise (mkExn TypeError "string indices must be integers")
  end.

(** ** Merging the two channels *)

(** [m.get_display_info()] as line 497 iterates it. *)
Definition get_display_info_of (m : Method) : M (list Monitor) :=
  match m with
  | WMI_cls => WMI_get_display_info DNone
  | VCP_cls =>
      let* r := VCP_get_display_info DNone in
      match r with
      | DictList info => ret info
      | OneDict _ => raise (mkExn TypeError "string indices must be integers")
      end
  end.

(** The inner loop, lines 497-500, on the accumulators [info], [edids]. *)
Fixpoint merge_records (l : list Monitor)
    (acc : list Monitor * list (option string))
    : list Monitor * list (option string) :=
  match l with
  | [] => acc
  | i :: rest =>
      if bool_decide (edid i ∈ acc.2) then merge_records rest acc
      else merge_records rest (acc.1 ++ [i], acc.2 ++ [edid i])
  end.

(** The outer loop, line 495. *)
Fixpoint merge_methods (methods : list Method)
    (acc : list Monitor * list (option string))
    : M (list Monitor * list (option string)) :=
  match methods with
  | [] => ret acc
  | m :: rest =>
      let* l := get_display_info_of m in
      merge_methods rest (merge_records l acc)
  end.

(** [list_monitors_info(method)], lines 484-502 *)
Definition list_monitors_info (method : option string) : M (list Monitor) :=
  try_except (__cache__get_info "windows_monitors_info" [("method", method)])
    (fun _ =>
       let* methods :=
         match method with
         | None => ret [WMI_cls; VCP_cls]
         | Some c =>
             match List.filter (method_is c) [WMI_cls; VCP_cls] with
             | [] => raise (mkExn ValueError "method kwarg must be 'wmi' or 'vcp'")
             | methods => ret methods
             end
         end in
       let* acc := merge_methods methods ([], []) in
       let* _ := __cache__store "windows_monitors_info" (CInfo acc.1) None
                   [("method", method)] in
       ret acc.1).

(** [list_monitors(method)], line 522 *)
Definition list_monitors (method : option string) : M (list string) :=
  let* info := list_monitors_info method in ret (name <$> info).

End Enumeration.

(** ** Generators *)

(** A generator over a fixed world, as the finite run it would make if
    iterated to the end: what it yields, what it does between two yields,
    and how it ends.  A consumer that stops early simply never runs the
    rest, as closing a generator suspended at a [yield] outside any
    [try]/[finally] does. *)
Inductive gen (Y : Type) :=
  | GStop
  | GRaise (e : exn)
  | GYield (y : Y) (k : gen Y)
  | GDo (ev : Event) (k : gen Y).
Arguments GStop {Y}.
Arguments GRaise {Y} e.
Arguments GYield {Y} y k.
Arguments GDo {Y} ev k.

(** [next(g)]: run to the next [yield]; [None] is [StopIteration]. *)
Fixpoint gen_next {Y} (g : gen Y) : M (option (Y * gen Y)) :=
  match g with
  | GStop => ret None
  | GRaise e => raise e
  | GYield y k => ret (Some (y, k))
  | GDo ev k => let* _ := emit ev in gen_next k
  end.

(** [g.close()], also what happens when a suspended generator is dropped. *)
Definition gen_close {Y} (g : gen Y) : M unit := ret tt.

(** [for y in g: acc = body(y, acc)].  An exception in the body leaves the
    loop and the generator behind. *)
Fixpoint for_gen {Y A} (g : gen Y) (body : Y -> A -> M A) (acc : A) : M A :=
  match g with
  | GStop => ret acc
  | GRaise e => raise e
  | GYield y k => let* acc' := body y acc in for_gen k body acc'
  | GDo ev k => let* _ := emit ev in for_gen k body acc
  end.

(** A consumer that takes at most [n] items and then closes the generator:
    [for y in g: ...; break]. *)
Fixpoint take_gen {Y} (n : nat) (g : gen Y) : M (list Y) :=
  match n with
  | O => let* _ := gen_close g in ret []
  | S n' =>
      let* r := gen_next g in
      match r with
      | None => ret []
      | Some (y, k) => let* ys := take_gen n' k in ret (y :: ys)
      end
  end.

Section Brightness.

Variable w : World.

(** [(VCP._PHYSICAL_MONITOR * count)()] after the call filled it. *)
Definition physical_array (count : nat) (handles : list Z) : list Z :=
  take count (handles ++ replicate count 0).

(** lines 216-218 *)
Fixpoint yield_items (physical_array : list Z) (k : gen Z) : gen Z :=
  match physical_array with
  | [] => k
  | handle :: rest =>
      GYield handle (GDo (DestroyPhysicalMonitor handle) (yield_items rest k))
  end.

(** lines 206-218 *)
Fixpoint iter_monitors (monitors : list Z) : gen Z :=
  match monitors with
  | [] => GStop
  | monitor :: rest =>
      match GetNumberOfPhysicalMonitorsFromHMONITOR w monitor with
      | None => GRaise (mkExn WinErrorExn "")
      | Some count =>
          if (0 <? count)%nat then
            match GetPhysicalMonitorsFromHMONITOR w monitor count with
            | None => GRaise (mkExn WinErrorExn "")
            | Some handles =>
                yield_items (physical_array count handles) (iter_monitors rest)
            end
          else iter_monitors rest
      end
  end.

(** [VCP.iter_physical_monitors()], lines 199-218 *)
Definition VCP_iter_physical_monitors : gen Z :=
  match user32_EnumDisplayMonitors w with
  | None => GRaise (mkExn WinErrorExn "EnumDisplayMonitors failed")
  | Some monitors => iter_monitors monitors
  end.

(** Modelled from the spec: [filter_monitors] lives in the package's
    [__init__] and is not part of this file.  Called without a haystack it
    searches the merged list ("orchestrator -> resolver (consults both
    providers, cached)", [merge()] of section 4.4), which is
    [list_monitors_info] under the same channel constraint; on a given
    haystack see [filter_haystack]. *)
Definition filter_monitors (display : Display)
    (haystack : option (list Monitor)) (method : option string)
    : M (list Monitor) :=
  match haystack with
  | Some h => lift (filter_haystack display h method)
  | None =>
      let* h := list_monitors_info w method in
      lift (filter_haystack display h method)
  end.

(** [[l[i] for i in indexes]] *)
Definition pick {A} (l : list A) (indexes : list nat) : M (list A) :=
  mapM (fun i => lift (Py.index l i)) indexes.

(** [values[0] if len(values)==1 else values] *)
Definition one_or_list (values : list pyval) : pyval :=
  match values with
  | [v] => v
  | _ => PList values
  end.

(** [WMI.get_brightness(display)], lines 168-173 *)
Definition WMI_get_brightness (display : Display) : M pyval :=
  let* _ := _wmi_init w in
  let* brightness_method := lift (WmiMonitorBrightness w) in
  let* brightness_method :=
    match display with
    | DNone => ret brightness_method
    | _ =>
        let* found := filter_monitors display None (Some "wmi") in
        pick brightness_method (index <$> found)
    end in
  let values := (fun i => PInt (CurrentBrightness i)) <$> brightness_method in
  ret (one_or_list values).

(** [WMI.set_brightness(value, display, no_return)], lines 129-135 *)
Definition WMI_set_brightness (value : Z) (display : Display)
    (no_return : pyval) : M pyval :=
  let* _ := _wmi_init w in
  let* brightness_method := lift (WmiMonitorBrightnessMethods w) in
  let* brightness_method :=
    match display with
    | DNone => ret brightness_method
    | _ =>
        let* found := filter_monitors display None (Some "wmi") in
        pick brightness_method (index <$> found)
    end in
  let* _ :=
    mapM (fun method =>
            let* _ := emit (WmiSetBrightness_call (wbm_InstanceName method) value) in
            lift (WmiSetBrightness method value)) brightness_method in
  if negb (truthy no_return) then WMI_get_brightness display else ret PNone.

(** [VCP.get_display_info()] where a list is expected. *)
Definition VCP_all_monitors : M (list Monitor) := get_display_info_of w VCP_cls.

(** ['vcp_'+all_monitors[count]['edid']+'_brightness'], lines 400 and 410;
    [all_monitors = None]: the name is not bound. *)
Definition brightness_key (all_monitors : option (list Monitor)) (count : nat)
    : result string :=
  match all_monitors with
  | None => Raise (mkExn NameError "name 'all_monitors' is not defined")
  | Some l =>
      match Py.index l count with
      | Raise e => Raise e
      | Ok m =>
          match edid m with
          | None => Raise (mkExn TypeError "can only concatenate str (not NoneType) to str")
          | Some e => Ok ("vcp_" +:+ e +:+ "_brightness")
          end
      end
  end.

(** [except IndexError: pass] *)
Definition try_except_IndexError (m : M unit) : M unit :=
  fun s => match m s with
           | (Raise e, s') =>
               match exn_kind e with
               | IndexError => (Ok tt, s')
               | _ => (Raise e, s')
               end
           | r => r
           end.

(** The body of the loop of lines 398-413 on [(count, values)]. *)
Definition get_brightness_body (display : Display)
    (all_monitors : option (list Monitor)) (indexes : option (list nat))
    (m : Z) (acc : nat * list Z) : M (nat * list Z) :=
  let '(count, values) := acc in
  let* v :=
    try_except
      (let* key := lift (brightness_key all_monitors count) in
       let* v := __cache__get_brightness key in
       ret (Some v))
      (fun _ => ret (GetVCPFeatureAndVCPFeatureReply w m)) in
  let* selected :=
    match v, display with
    | None, _ => ret false
    | Some _, DNone => ret true
    | Some _, _ =>
        match indexes with
        | Some l => ret (bool_decide (count ∈ l))
        | None => raise (mkExn NameError "name 'indexes' is not defined")
        end
    end in
  match v with
  | Some v' =>
      if (selected : bool) then
        let* _ :=
          try_except_IndexError
            (let* key := lift (brightness_key all_monitors count) in
             __cache__store key (CBrightness v') (Some 500) []) in
        ret (S count, values ++ [v'])
      else ret (S count, values)
  | None => ret (S count, values)
  end.

(** [VCP.get_brightness(display)], lines 391-417 *)
Definition VCP_get_brightness (display : Display) : M pyval :=
  let* bound :=
    match display with
    | DNone => ret (None, None)
    | _ =>
        let* all_monitors := VCP_all_monitors in
        let* monitors := filter_monitors display (Some all_monitors) None in
        ret (Some all_monitors, Some (index <$> monitors))
    end in
  let* r := for_gen VCP_iter_physical_monitors
              (get_brightness_body display bound.1 bound.2) (O, []) in
  match r.2 with
  | [] => ret PNone
  | values => ret (one_or_list (PInt <$> values))
  end.

(** [DWORD(value).value] *)
Definition DWORD (value : Z) : Z := value mod 2 ^ 32.

(** [VCP.set_brightness(value, display, no_return)], lines 446-454 *)
Definition VCP_set_brightness (value : Z) (display : Display)
    (no_return : pyval) : M pyval :=
  let* displays :=
    match display with
    | DNone => ret None
    | _ =>
        let* found := filter_monitors display None (Some "vcp") in
        ret (Some (index <$> found))
    end in
  let* _ :=
    for_gen VCP_iter_physical_monitors
      (fun m loops =>
         let* selected :=
           match display, displays with
           | DNone, _ => ret true
           | _, Some l => ret (bool_decide (loops ∈ l))
           | _, None => raise (mkExn NameError "name 'displays' is not defined")
           end in
         let* _ := (if (selected : bool) then emit (SetVCPFeature m 16 (DWORD value))
                    else ret tt) in
         ret (S loops)) O in
  if negb (truthy no_return) then VCP_get_brightness display else ret PNone.

End Brightness.

(** ** The top-level dispatch *)

Inductive MetaMethod := meta_get | meta_set.

(** One entry of the list [errors]: [[name, type(e).__name__, e]]. *)
Definition ErrEntry : Type := string * string * string.

Definition TAB : string := String "009"%char EmptyString.
Definition NL : string := String "010"%char EmptyString.

(** lines 548-552 *)
Definition error_line (e : ErrEntry) : string :=
  TAB +:+ e.1.1 +:+ " -> " +:+ e.1.2 +:+ ": " +:+ e.2 +:+ NL.

Definition error_message (errors : list ErrEntry) : string :=
  let msg := foldl (fun msg e => msg +:+ error_line e) NL errors in
  if String.eqb msg NL
  then msg +:+ TAB +:+ "no valid output was received from brightness methods"
  else msg.

(** Modelled from the spec: [flatten_list] lives in the package's
    [__init__] and is not part of this file.  Section 4.5: "flattens one
    level of nested list results from fan-out". *)
Definition flatten_list (l : list pyval) : list pyval :=
  concat ((fun v => match v with PList inner => inner | _ => [v] end) <$> l).

(** [f"{m['name']} ({m['serial']})"] *)
Definition record_name (m : Monitor) : string :=
  name m +:+ " (" +:+ serial m +:+ ")".

Section Dispatch.

Variable w : World.

(** [getattr(cls, meta_method+'_brightness')] called on [args],
    [display=display] and [kwargs]: the binding of the arguments to the signatures
    [set_brightness(value, display=None, no_return=False)] and
    [get_brightness(display=None)], then the call. *)
Definition call_brightness (cls : Method) (meta_method : MetaMethod)
    (args : list Z) (display : Display) (kwargs : gmap string pyval)
    : M pyval :=
  match meta_method, args with
  | meta_set, [value] =>
      if bool_decide (delete "no_return" kwargs = ∅) then
        let no_return := default (PBool false) (kwargs !! "no_return") in
        match cls with
        | WMI_cls => WMI_set_brightness w value display no_return
        | VCP_cls => VCP_set_brightness w value display no_return
        end
      else raise (mkExn TypeError "set_brightness() got an unexpected keyword argument")
  | meta_get, [] =>
      if bool_decide (kwargs = ∅) then
        match cls with
        | WMI_cls => WMI_get_brightness w display
        | VCP_cls => VCP_get_brightness w display
        end
      else raise (mkExn TypeError "get_brightness() got an unexpected keyword argument")
  | _, _ => raise (mkExn TypeError "wrong number of positional arguments")
  end.

(** The loop of lines 534-541 on the lists [output] and [errors]. *)
Fixpoint dispatch_loop (meta_method : MetaMethod) (args : list Z)
    (kwargs : gmap string pyval) (monitors : list Monitor)
    (output : list pyval) (errors : list ErrEntry)
    : M (list pyval * list ErrEntry) :=
  match monitors with
  | [] => ret (output, errors)
  | m :: rest =>
      let* r :=
        try_except
          (let* v := call_brightness (method m) meta_method args
                       (DStr (serial m)) kwargs in
           ret (inl v))
          (fun e => ret (inr e)) in
      match r with
      | inl v => dispatch_loop meta_method args kwargs rest (output ++ [v]) errors
      | inr e =>
          dispatch_loop meta_method args kwargs rest (output ++ [PNone])
            (errors ++ [(record_name m, kind_name (exn_kind e), exn_msg e)])
      end
  end.

(** [__set_and_get_brightness], lines 527-553 *)
Definition __set_and_get_brightness (args : list Z) (display : Display)
    (method : option string) (meta_method : MetaMethod)
    (kwargs : gmap string pyval) : M pyval :=
  let* r :=
    try_except
      (let* monitors := filter_monitors w display None method in
       ret (inl monitors))
      (fun e => ret (inr [(EmptyString, kind_name (exn_kind e), exn_msg e)])) in
  let* r' :=
    match r with
    | inr errors => ret (inr errors)
    | inl monitors =>
        let* oe := dispatch_loop meta_method args kwargs monitors [] [] in
        let '(output, errors) := oe in
        match output with
        | [] => ret (inr errors)
        | _ =>
            if negb (forallb is_None output)
            then ret (inl (one_or_list (flatten_list output)))
            else ret (inr errors)
        end
    end in
  match r' with
  | inl v => ret v
  | inr errors => raise (mkExn Exception_ (error_message errors))
  end.

(** [set_brightness(value, display, method, **kwargs)], line 594.  A
    keyword [meta_method] in [kwargs] meets the one the call passes. *)
Definition set_brightness (value : Z) (display : Display)
    (method : option string) (kwargs : gmap string pyval) : M pyval :=
  match kwargs !! "meta_method" with
  | Some _ => raise (mkExn TypeError "got multiple values for keyword argument 'meta_method'")
  | None => __set_and_get_brightness [value] display method meta_set kwargs
  end.

(** [get_brightness(display, method, **kwargs)], line 638 *)
Definition get_brightness (display : Display) (method : option string)
    (kwargs : gmap string pyval) : M pyval :=
  match kwargs !! "meta_method" with
  | Some _ => raise (mkExn TypeError "got multiple values for keyword argument 'meta_method'")
  | None => __set_and_get_brightness [] display method meta_get kwargs
  end.

End Dispatch.

(** ** Vocabulary of the statements *)

(** [m['edid'] == e] *)
Definition has_edid (e : option string) (m : Monitor) : bool :=
  bool_decide (edid m = e).

(** The merge of lines 493-500 on lists already enumerated. *)
Definition merged (lists : list Monitor) : list Monitor :=
  (merge_records lists ([], [])).1.

Definition is_Raise {A} (r : result A) : bool :=
  match r with Raise _ => true | Ok _ => false end.

Definition is_Ok {A} (r : result A) : bool :=
  match r with Ok _ => true | Raise _ => false end.

(** The outcome of each per-record call of line 537, in the order and in
    the states in which the loop makes them. *)
Fixpoint call_outcomes (w : World) (meta_method : MetaMethod) (args : list Z)
    (kwargs : gmap string pyval) (monitors : list Monitor) (s : State)
    : list (result pyval) :=
  match monitors with
  | [] => []
  | m :: rest =>
      let r := call_brightness w (method m) meta_method args (DStr (serial m)) kwargs s in
      r.1 :: call_outcomes w meta_method args kwargs rest r.2
  end.

(** The state after those calls. *)
Fixpoint state_after_calls (w : World) (meta_method : MetaMethod) (args : list Z)
    (kwargs : gmap string pyval) (monitors : list Monitor) (s : State) : State :=
  match monitors with
  | [] => s
  | m :: rest =>
      let r := call_brightness w (method m) meta_method args (DStr (serial m)) kwargs s in
      state_after_calls w meta_method args kwargs rest r.2
  end.

(** The slot each call leaves in [output]: its value, or [None] when it
    raised. *)
Definition output_slot (r : result pyval) : pyval :=
  match r with Ok v => v | Raise _ => PNone end.

(** The entries of [errors] for the calls that raised. *)
Fixpoint error_entries (monitors : list Monitor) (outcomes : list (result pyval))
    : list ErrEntry :=
  match monitors, outcomes with
  | m :: ms, Raise e :: rs =>
      (record_name m, kind_name (exn_kind e), exn_msg e) :: error_entries ms rs
  | _ :: ms, Ok _ :: rs => error_entries ms rs
  | _, _ => []
  end.

(** What a generator yields when it is iterated to its end. *)
Fixpoint gen_yields {Y} (g : gen Y) : list Y :=
  match g with
  | GStop => []
  | GRaise _ => []
  | GYield y k => y :: gen_yields k
  | GDo _ k => gen_yields k
  end.

(** A generator of handles in which the release of a handle is the first
    thing done when it is resumed after yielding it, and nothing else is
    done. *)
Inductive releases_on_resume : gen Z -> Prop :=
  | ror_stop : releases_on_resume GStop
  | ror_raise e : releases_on_resume (GRaise e)
  | ror_yield h k :
      releases_on_resume k ->
      releases_on_resume (GYield h (GDo (DestroyPhysicalMonitor h) k)).

(** The state [__cache__.store] leaves. *)
Definition stored (key : string) (v : CacheVal) (expires : option Z)
    (params : Params) (s : State) : State :=
  (__cache__store key v expires params s).2.

(** ** Example systems *)

Module Examples.

(** A brand table that knows BenQ by code and by name. *)
Definition brands (s : string) : option (string * string) :=
  if String.eqb s "BNQ" then Some ("BNQ", "BenQ")
  else if String.eqb s "Benq" then Some ("BNQ", "BenQ")
  else None.

Definition inst1 : string := "DISPLAY\BNQ78A7\4&1bb&0&UID256_0".
Definition inst2 : string := "DISPLAY\XYZ1234\5&2cc&0&UID257_0".

Definition device_id (device : string) : string :=
  if String.eqb device "\\.\DISPLAY1"
  then "\\?\DISPLAY#BNQ78A7#4&1bb&0&UID256#{e6f07b5f}"
  else "\\?\DISPLAY#XYZ1234#5&2cc&0&UID257#{e6f07b5f}".

Definition panel : WmiMonitorBrightnessObj :=
  {| wb_InstanceName := inst1; CurrentBrightness := 40 |}.
Definition panel_id : WmiMonitorIDObj :=
  {| wi_InstanceName := inst1;
     SerialNumberID := Some [83; 49; 0];
     UserFriendlyName := Some [66; 101; 110; 81; 32; 71; 76; 50; 0; 0] |}.
Definition external_id : WmiMonitorIDObj :=
  {| wi_InstanceName := inst2;
     SerialNumberID := Some [65; 66; 0; 0];
     UserFriendlyName := Some [65; 67; 77; 69; 32; 88; 49; 0] |}.

(** A laptop panel (BenQ) seen by both channels and an external monitor
    (Acme, a brand the table does not know) seen by VCP only. *)
Definition two_monitors : World := {|
  in_main_thread := true;
  wmi_WMI := Ok tt;
  WmiMonitorBrightness := Ok [panel];
  WmiMonitorBrightnessMethods :=
    Ok [ {| wbm_InstanceName := inst1; WmiSetBrightness := fun _ => Ok tt |} ];
  WmiMonitorDescriptorMethods :=
    Ok [ {| wd_InstanceName := inst1; WmiGetMonitorRawEEdidV1Block := Ok [0; 255; 255; 16] |};
         {| wd_InstanceName := inst2; WmiGetMonitorRawEEdidV1Block := Ok [0; 255; 1; 2] |} ];
  WmiMonitorID := Ok [external_id; panel_id];
  win32api_EnumDisplayMonitors := Ok [1; 2];
  win32api_GetMonitorInfo :=
    fun h => Ok (if h =? 1 then "\\.\DISPLAY1" else "\\.\DISPLAY2");
  win32api_EnumDisplayDevices := fun device => Ok (device_id device);
  user32_EnumDisplayMonitors := Some [1; 2];
  GetNumberOfPhysicalMonitorsFromHMONITOR := fun _ => Some 1%nat;
  GetPhysicalMonitorsFromHMONITOR := fun h _ => Some [100 + h];
  GetVCPFeatureAndVCPFeatureReply := fun _ => Some 55;
  _monitor_brand_lookup := brands
|}.

Definition benq_wmi : Monitor :=
  mkMonitor "BenQ BNQ78A7" "BNQ78A7" None "4&1bb&0&UID256_0" (Some "BenQ")
    (Some "BNQ") 0 WMI_cls (Some "0ffff10").
Definition benq_vcp : Monitor :=
  mkMonitor "BenQ GL2" "GL2" None "S1" (Some "BenQ") (Some "BNQ") 0 VCP_cls
    (Some "0ffff10").
Definition acme_vcp : Monitor :=
  mkMonitor "Acme X1" "X1" None "AB" (Some "Acme") None 1 VCP_cls
    (Some "0ff12").

Definition with_descriptors (r : result (list WmiMonitorDescriptorMethodsObj))
    (w : World) : World := {|
  in_main_thread := in_main_thread w;
  wmi_WMI := wmi_WMI w;
  WmiMonitorBrightness := WmiMonitorBrightness w;
  WmiMonitorBrightnessMethods := WmiMonitorBrightnessMethods w;
  WmiMonitorDescriptorMethods := r;
  WmiMonitorID := WmiMonitorID w;
  win32api_EnumDisplayMonitors := win32api_EnumDisplayMonitors w;
  win32api_GetMonitorInfo := win32api_GetMonitorInfo w;
  win32api_EnumDisplayDevices := win32api_EnumDisplayDevices w;
  user32_EnumDisplayMonitors := user32_EnumDisplayMonitors w;
  GetNumberOfPhysicalMonitorsFromHMONITOR := GetNumberOfPhysicalMonitorsFromHMONITOR w;
  GetPhysicalMonitorsFromHMONITOR := GetPhysicalMonitorsFromHMONITOR w;
  GetVCPFeatureAndVCPFeatureReply := GetVCPFeatureAndVCPFeatureReply w;
  _monitor_brand_lookup := _monitor_brand_lookup w
|}.

Definition with_brightness (r : result (list WmiMonitorBrightnessObj))
    (w : World) : World := {|
  in_main_thread := in_main_thread w;
  wmi_WMI := wmi_WMI w;
  WmiMonitorBrightness := r;
  WmiMonitorBrightnessMethods := WmiMonitorBrightnessMethods w;
  WmiMonitorDescriptorMethods := WmiMonitorDescriptorMethods w;
  WmiMonitorID := WmiMonitorID w;
  win32api_EnumDisplayMonitors := win32api_EnumDisplayMonitors w;
  win32api_GetMonitorInfo := win32api_GetMonitorInfo w;
  win32api_EnumDisplayDevices := win32api_EnumDisplayDevices w;
  user32_EnumDisplayMonitors := user32_EnumDisplayMonitors w;
  GetNumberOfPhysicalMonitorsFromHMONITOR := GetNumberOfPhysicalMonitorsFromHMONITOR w;
  GetPhysicalMonitorsFromHMONITOR := GetPhysicalMonitorsFromHMONITOR w;
  GetVCPFeatureAndVCPFeatureReply := GetVCPFeatureAndVCPFeatureReply w;
  _monitor_brand_lookup := _monitor_brand_lookup w
|}.

Definition with_brand_lookup (f : string -> option (string * string))
    (w : World) : World := {|
  in_main_thread := in_main_thread w;
  wmi_WMI := wmi_WMI w;
  WmiMonitorBrightness := WmiMonitorBrightness w;
  WmiMonitorBrightnessMethods := WmiMonitorBrightnessMethods w;
  WmiMonitorDescriptorMethods := WmiMonitorDescriptorMethods w;
  WmiMonitorID := WmiMonitorID w;
  win32api_EnumDisplayMonitors := win32api_EnumDisplayMonitors w;
  win32api_GetMonitorInfo := win32api_GetMonitorInfo w;
  win32api_EnumDisplayDevices := win32api_EnumDisplayDevices w;
  user32_EnumDisplayMonitors := user32_EnumDisplayMonitors w;
  GetNumberOfPhysicalMonitorsFromHMONITOR := GetNumberOfPhysicalMonitorsFromHMONITOR w;
  GetPhysicalMonitorsFromHMONITOR := GetPhysicalMonitorsFromHMONITOR w;
  GetVCPFeatureAndVCPFeatureReply := GetVCPFeatureAndVCPFeatureReply w;
  _monitor_brand_lookup := f
|}.

(** The same machine with a brand table that knows nothing. *)
Definition unknown_brands : World :=
  with_brand_lookup (fun _ => None) two_monitors.

Definition not_supported : exn := mkExn x_wmi "Not supported".

(** The same machine when neither channel can act: the WMI brightness
    methods are refused and the display enumeration of user32 fails. *)
Definition broken_controls : World := {|
  in_main_thread := true;
  wmi_WMI := Ok tt;
  WmiMonitorBrightness := WmiMonitorBrightness two_monitors;
  WmiMonitorBrightnessMethods := Raise not_supported;
  WmiMonitorDescriptorMethods := WmiMonitorDescriptorMethods two_monitors;
  WmiMonitorID := WmiMonitorID two_monitors;
  win32api_EnumDisplayMonitors := win32api_EnumDisplayMonitors two_monitors;
  win32api_GetMonitorInfo := win32api_GetMonitorInfo two_monitors;
  win32api_EnumDisplayDevices := win32api_EnumDisplayDevices two_monitors;
  user32_EnumDisplayMonitors := None;
  GetNumberOfPhysicalMonitorsFromHMONITOR := fun _ => Some 1%nat;
  GetPhysicalMonitorsFromHMONITOR := fun h _ => Some [100 + h];
  GetVCPFeatureAndVCPFeatureReply := fun _ => Some 55;
  _monitor_brand_lookup := brands
|}.

(** The same machine when the query for the identity blocks is refused:
    no record gets an [edid]. *)
Definition no_descriptors : World :=
  with_descriptors (Raise not_supported) two_monitors.

(** The same again, with the brightness query of WMI refused as well. *)
Definition wmi_down : World :=
  with_brightness (Raise not_supported) no_descriptors.

End Examples.

(** [m] with a null [edid]. *)
Definition without_edid (m : Monitor) : Monitor :=
  mkMonitor (name m) (model m) (model_name m) (serial m) (manufacturer m)
    (manufacturer_id m) (index m) (method m) None.

(** A call WMI's enumeration depends on raises: the connection
    [wmi.WMI(namespace='wmi')] of a process that holds no instance yet, or
    the query [WmiMonitorBrightness()]. *)
Definition WMI_api_throws (w : World) (s : State) : Prop :=
  (cache_lookup "wmi_instance" [] s = None /\ is_Raise (wmi_WMI w) = true)
  \/ is_Raise (WmiMonitorBrightness w) = true.

(** [output != [] and not all(i == None for i in output)] *)
Definition has_result (output : list pyval) : bool :=
  existsb (fun v => negb (is_None v)) output.

(** The top-level operation [meta_method] names, and the positional
    arguments it passes on (lines 594 and 638). *)
Definition top_level (w : World) (meta_method : MetaMethod) (value : Z)
    : Display -> option string -> gmap string pyval -> M pyval :=
  match meta_method with
  | meta_set => set_brightness w value
  | meta_get => get_brightness w
  end.

Definition top_level_args (meta_method : MetaMethod) (value : Z) : list Z :=
  match meta_method with
  | meta_set => [value]
  | meta_get => []
  end.

(** No field of any record equals the string [q], case ignored. *)
Definition matches_nothing (q : string) (haystack : list Monitor) : bool :=
  forallb (fun m => forallb (fun f => negb (field_matches q (f m))) query_fields)
    haystack.

(** The entry of [errors] for record [m] whose call raised [e]. *)
Definition error_entry (m : Monitor) (e : exn) : ErrEntry :=
  (record_name m, kind_name (exn_kind e), exn_msg e).

(** The feature read of line 403 succeeds on handle [h]. *)
Definition readable (w : World) (h : Z) : bool :=
  match GetVCPFeatureAndVCPFeatureReply w h with
  | Some _ => true
  | None => false
  end.

(** The [DestroyPhysicalMonitor] calls in an event log, in order. *)
Definition destroyed (evs : list Event) : list Z :=
  omap (fun ev => match ev with DestroyPhysicalMonitor h => Some h | _ => None end) evs.

(** How a generator ends when it is iterated to its end: [None] for
    [StopIteration], or the exception it raises. *)
Fixpoint gen_end {Y} (g : gen Y) : option exn :=
  match g with
  | GStop => None
  | GRaise e => Some e
  | GYield _ k => gen_end k
  | GDo _ k => gen_end k
  end.

(** ** The capabilities string *)

(** The two calls of dxva2 that [VCP.get_monitor_caps] makes. *)
Record CapabilitiesApi := {
  (** [GetCapabilitiesStringLength]: the length written, or [None] when
      the call returns 0 *)
  GetCapabilitiesStringLength : Z -> option nat;
  (** [CapabilitiesRequestAndCapabilitiesReply]: the bytes written into
      the buffer of the given length, or [None] when the call returns 0 *)
  CapabilitiesRequestAndCapabilitiesReply : Z -> nat -> option (list Z)
}.

(** [(ctypes.c_char * n)().value]: the bytes before the first NUL. *)
Fixpoint c_char_value (buffer : list Z) : list Z :=
  match buffer with
  | [] => []
  | b :: rest => if b =? 0 then [] else b :: c_char_value rest
  end.

(** [VCP.get_monitor_caps(monitor)], lines 335-341; [Ok None] is the bare
    [return]. *)
Definition VCP_get_monitor_caps (api : CapabilitiesApi) (monitor : Z)
    : result (option string) :=
  match GetCapabilitiesStringLength api monitor with
  | None => Ok None
  | Some caps_string_length =>
      match CapabilitiesRequestAndCapabilitiesReply api monitor caps_string_length with
      | None => Ok None
      | Some written =>
          let caps_string :=
            take caps_string_length (written ++ replicate caps_string_length 0) in
          let value := c_char_value caps_string in
          if forallb (Py.in_range 0 127) value
          then Ok (Some (Py.string_of_bytes value))
          else Raise (mkExn UnicodeDecodeError "'ascii' codec can't decode byte")
      end
  end.

(** The writes and releases [VCP.set_brightness] makes on a handle it
    selects. *)
Definition set_and_release (value : Z) (h : Z) : list Event :=
  [SetVCPFeature h 16 (DWORD value); DestroyPhysicalMonitor h].

(** The call [method.WmiSetBrightness(value, 0)] in the log. *)
Definition wmi_set_call (value : Z) (m : WmiMonitorBrightnessMethodsObj) : Event :=
  WmiSetBrightness_call (wbm_InstanceName m) value.

(** The state with [evs] added to its log. *)
Definition logged (evs : list Event) (s : State) : State :=
  mkState (cache s) (clock s) (events s ++ evs).

(** * Properties *)

(** ** The merge *)

Lemma merge_records_app l1 l2 acc :
  merge_records (l1 ++ l2) acc = merge_records l2 (merge_records l1 acc).
Proof.
  revert acc. induction l1 as [|i l1 IH]; intros acc; simpl; [done|].
  destruct (bool_decide _); apply IH.
Qed.

Lemma merge_records_edids l acc :
  acc.2 = edid <$> acc.1 ->
  (merge_records l acc).2 = edid <$> (merge_records l acc).1.
Proof.
  revert acc. induction l as [|i l IH]; intros acc Hacc; simpl; [done|].
  destruct (bool_decide _); apply IH; [done|].
  simpl. rewrite fmap_app, Hacc. done.
Qed.

Lemma filter_has_edid_absent e (l : list Monitor) :
  e ∉ edid <$> l -> List.filter (has_edid e) l = [].
Proof.
  induction l as [|i l IH]; intros Hnot; simpl; [done|].
  rewrite fmap_cons, not_elem_of_cons in Hnot. destruct Hnot as [Hne Hnot].
  unfold has_edid at 1. rewrite bool_decide_eq_false_2 by congruence.
  by apply IH.
Qed.

Lemma has_edid_true e i : has_edid e i = true <-> edid i = e.
Proof. unfold has_edid. apply bool_decide_eq_true. Qed.

Lemma has_edid_false e i : has_edid e i = false <-> edid i <> e.
Proof. unfold has_edid. apply bool_decide_eq_false. Qed.

Lemma merge_records_filter e l acc :
  acc.2 = edid <$> acc.1 ->
  List.filter (has_edid e) (merge_records l acc).1 =
    if bool_decide (e ∈ acc.2) then List.filter (has_edid e) acc.1
    else take 1 (List.filter (has_edid e) l).
Proof.
  revert acc. induction l as [|i l IH]; intros [info edids] Hacc; simpl in *.
  - case_bool_decide as He; [done|]. subst edids. by apply filter_has_edid_absent.
  - case_bool_decide as Hi; simpl.
    + rewrite IH by done. simpl. case_bool_decide as He; [done|].
      destruct (has_edid e i) eqn:Hei; [|done].
      apply has_edid_true in Hei. subst e. done.
    + rewrite IH by (simpl; rewrite fmap_app, Hacc; done). simpl.
      rewrite List.filter_app. simpl.
      destruct (has_edid e i) eqn:Hei.
      * apply has_edid_true in Hei. subst e.
        rewrite bool_decide_eq_true_2 by (apply elem_of_app; right; by apply list_elem_of_singleton).
        rewrite (bool_decide_eq_false_2 _ Hi). simpl.
        rewrite filter_has_edid_absent; [done|]. by subst edids.
      * apply has_edid_false in Hei. rewrite app_nil_r.
        destruct (decide (e ∈ edids)) as [He|He].
        -- rewrite bool_decide_eq_true_2 by (apply elem_of_app; by left).
           by rewrite bool_decide_eq_true_2.
        -- rewrite (bool_decide_eq_false_2 _ He).
           rewrite bool_decide_eq_false_2; [done|].
           rewrite elem_of_app, list_elem_of_singleton. intros [?|?]; [done|congruence].
Qed.

Lemma merged_filter e l :
  List.filter (has_edid e) (merged l) = take 1 (List.filter (has_edid e) l).
Proof.
  unfold merged. by rewrite merge_records_filter.
Qed.

Lemma merge_records_NoDup l acc :
  acc.2 = edid <$> acc.1 ->
  NoDup (acc.2 ++ (edid <$> l)) ->
  (merge_records l acc).1 = acc.1 ++ l.
Proof.
  revert acc. induction l as [|i l IH]; intros [info edids] Hacc Hnd; simpl in *.
  - by rewrite app_nil_r.
  - apply NoDup_app in Hnd as (Hnd1 & Hdisj & Hnd2).
    apply NoDup_cons in Hnd2 as [Hi Hnd2].
    rewrite bool_decide_eq_false_2.
    + rewrite IH; simpl.
      * by rewrite <- app_assoc.
      * by rewrite fmap_app, Hacc.
      * rewrite <- app_assoc. simpl. apply NoDup_app. split_and!; [done| |by apply NoDup_cons].
        intros x Hx. apply Hdisj. done.
    + intros Hin. apply (Hdisj _ Hin). by left.
Qed.

Lemma merged_NoDup l : NoDup (edid <$> l) -> merged l = l.
Proof.
  intros Hnd. unfold merged. by rewrite merge_records_NoDup.
Qed.

(** ** Discovery on a cache miss *)

Lemma get_info_miss key params s :
  cache_lookup key params s = None ->
  __cache__get_info key params s = (Raise (mkExn CacheMiss "cache miss"), s).
Proof. intros H. unfold __cache__get_info. by rewrite H. Qed.

Lemma list_monitors_info_miss w s la lb s1 s2 :
  cache_lookup "windows_monitors_info" [("method", None)] s = None ->
  WMI_get_display_info w DNone s = (Ok la, s1) ->
  VCP_get_display_info w DNone s1 = (Ok (DictList lb), s2) ->
  list_monitors_info w None s =
    (Ok (merged (la ++ lb)),
     stored "windows_monitors_info" (CInfo (merged (la ++ lb))) None [("method", None)] s2).
Proof.
  intros Hmiss Ha Hb.
  unfold list_monitors_info, try_except. rewrite (get_info_miss _ _ _ Hmiss).
  unfold bind at 1. unfold ret at 1. 
  unfold bind at 1. simpl. unfold bind at 1. rewrite Ha.
  unfold bind at 1. unfold bind at 1. rewrite Hb. unfold ret at 1.
  unfold ret at 1. unfold bind. simpl. unfold ret, merged, stored.
  by rewrite merge_records_app.
Qed.

(** C1: when each channel's list holds one record with the identity block
    [b], the list [list_monitors_info()] builds holds exactly one record
    with that block, and it is the one WMI reported. *)
Theorem merge_shared_edid_once w s la lb s1 s2 b ra rb :
  cache_lookup "windows_monitors_info" [("method", None)] s = None ->
  WMI_get_display_info w DNone s = (Ok la, s1) ->
  VCP_get_display_info w DNone s1 = (Ok (DictList lb), s2) ->
  List.filter (has_edid (Some b)) la = [ra] ->
  List.filter (has_edid (Some b)) lb = [rb] ->
  exists info s3,
    list_monitors_info w None s = (Ok info, s3)
    /\ List.filter (has_edid (Some b)) info = [ra].
Proof.
  intros Hmiss Ha Hb Hra Hrb.
  eexists _, _. split; [by eapply list_monitors_info_miss|].
  rewrite merged_filter, List.filter_app, Hra. done.
Qed.

Lemma merge_shared_edid_once_witness :
  exists info s3,
    list_monitors_info Examples.two_monitors None init_state = (Ok info, s3)
    /\ List.filter (has_edid (Some "0ffff10")) info = [Examples.benq_wmi].
Proof.
  eapply (merge_shared_edid_once Examples.two_monitors init_state
            [Examples.benq_wmi] [Examples.benq_vcp; Examples.acme_vcp]
            _ _ "0ffff10" Examples.benq_wmi Examples.benq_vcp);
    vm_compute; reflexivity.
Defined.

(** C2, as the spec states it, fails: with no identity blocks available,
    WMI and VCP each report records with a null [edid], and the merged list
    lacks one that VCP reported. *)
Lemma null_edid_record_dropped :
  exists la lb s1 s2 info s3 r,
    WMI_get_display_info Examples.no_descriptors DNone init_state = (Ok la, s1)
    /\ VCP_get_display_info Examples.no_descriptors DNone s1 = (Ok (DictList lb), s2)
    /\ list_monitors_info Examples.no_descriptors None init_state = (Ok info, s3)
    /\ In r lb /\ edid r = None /\ ~ In r info.
Proof.
  exists [without_edid Examples.benq_wmi],
         [without_edid Examples.benq_vcp; without_edid Examples.acme_vcp].
  eexists _, _, [without_edid Examples.benq_wmi], _, (without_edid Examples.acme_vcp).
  split_and!; try (vm_compute; reflexivity).
  - right. by left.
  - intros [H|[]]. discriminate H.
Qed.

(** C2, amended: of the records with a null [edid] that the two channels
    report, [list_monitors_info()] keeps the first one met and drops the
    later ones, as it does for any other value of [edid]. *)
Theorem merge_null_edid_first_only w s la lb s1 s2 :
  cache_lookup "windows_monitors_info" [("method", None)] s = None ->
  WMI_get_display_info w DNone s = (Ok la, s1) ->
  VCP_get_display_info w DNone s1 = (Ok (DictList lb), s2) ->
  exists info s3,
    list_monitors_info w None s = (Ok info, s3)
    /\ List.filter (has_edid None) info = take 1 (List.filter (has_edid None) (la ++ lb)).
Proof.
  intros Hmiss Ha Hb.
  eexists _, _. split; [by eapply list_monitors_info_miss|].
  apply merged_filter.
Qed.

Lemma merge_null_edid_first_only_witness :
  exists info s3,
    list_monitors_info Examples.no_descriptors None init_state = (Ok info, s3)
    /\ List.filter (has_edid None) info =
       take 1 (List.filter (has_edid None)
                 ([without_edid Examples.benq_wmi]
                  ++ [without_edid Examples.benq_vcp; without_edid Examples.acme_vcp])).
Proof.
  eapply (merge_null_edid_first_only Examples.no_descriptors init_state);
    vm_compute; reflexivity.
Defined.

(** ** A failing WMI channel *)

Lemma WMI_enumerate_absorbs w s :
  WMI_api_throws w s ->
  exists s1, WMI_enumerate w s = (Ok [], s1).
Proof.
  intros [[Hmiss Hconn]|Hquery]; unfold WMI_enumerate, try_except, bind.
  - unfold _wmi_init, try_except, __cache__get_instance. rewrite Hmiss.
    destruct (wmi_WMI w) as [|e]; [done|].
    destruct (in_main_thread w); simpl; eauto.
  - destruct (_wmi_init w s) as [[[]|e] s1]; [|by eexists].
    destruct (WmiMonitorBrightness w) as [|e]; [done|]. by eexists.
Qed.

Lemma WMI_get_display_info_absorbs w s :
  cache_lookup "wmi_monitor_info" [] s = None ->
  WMI_api_throws w s ->
  exists s1, WMI_get_display_info w DNone s = (Ok [], s1).
Proof.
  intros Hmiss Hthrows.
  destruct (WMI_enumerate_absorbs w s Hthrows) as [s1 Hs1].
  unfold WMI_get_display_info, try_except.
  unfold bind at 1. rewrite (get_info_miss _ _ _ Hmiss).
  unfold bind at 1. rewrite Hs1. simpl. by eexists.
Qed.

Lemma list_monitors_bind w method s info s' :
  list_monitors_info w method s = (Ok info, s') ->
  list_monitors w method s = (Ok (name <$> info), s').
Proof. intros H. unfold list_monitors, bind. by rewrite H. Qed.




(** ** Unknown brands *)

Lemma wmi_loop_prefix w d monitors info a :
  exists rest, wmi_loop w d monitors info a = info ++ rest.
Proof.
  revert info a. induction monitors as [|m ms IH]; intros info a; simpl.
  - exists []. by rewrite app_nil_r.
  - destruct (Py.index _ 1) as [model_|e]; [|exists []; by rewrite app_nil_r].
    destruct (_monitor_brand_lookup w _) as [[code full]|];
      match goal with |- context [wmi_loop w d ms (info ++ [?r]) _] =>
        destruct (IH (info ++ [r]) (S a)) as [rest ->]; exists (r :: rest);
        by rewrite <- app_assoc end.
Qed.

Lemma vcp_loop_prefix w d monitors info a :
  exists rest, vcp_loop w d monitors info a = info ++ rest.
Proof.
  revert info a. induction monitors as [|m ms IH]; intros info a; simpl.
  - exists []. by rewrite app_nil_r.
  - destruct (vcp_record w d m a) as [r|e]; [|apply IH].
    destruct (IH (info ++ [r]) (S a)) as [rest ->]. exists (r :: rest).
    by rewrite <- app_assoc.
Qed.

(** C8, as the spec states it, fails: with a brand table that knows
    nothing, the record WMI builds has a [manufacturer_id] and the record
    VCP builds has a [manufacturer]. *)
Lemma unknown_brand_fields_not_both_null :
  exists ra rb rc s1 s2,
    WMI_get_display_info Examples.unknown_brands DNone init_state = (Ok [ra], s1)
    /\ VCP_get_display_info Examples.unknown_brands DNone s1 = (Ok (DictList [rb; rc]), s2)
    /\ _monitor_brand_lookup Examples.unknown_brands (Py.slice_to 3 (model ra)) = None
    /\ manufacturer_id ra = Some "BNQ"
    /\ _monitor_brand_lookup Examples.unknown_brands "Benq" = None
    /\ manufacturer rb = Some "Benq".
Proof.
  eexists _, _, _, _, _. split_and!; vm_compute; reflexivity.
Qed.

(** C8, amended: a brand the lookup does not know is not fatal in either
    channel, the record is appended to the channel's list all the same.
    WMI leaves [manufacturer] null and sets [manufacturer_id] to the first
    three characters of the model; VCP leaves [manufacturer_id] null and
    sets [manufacturer] to the capitalised first word of the friendly
    name. *)
Theorem unknown_brand_record_kept w d
    (m : WmiMonitorBrightnessObj) (rest : list WmiMonitorBrightnessObj)
    (info : list Monitor) (a : nat) (wmi_model : string)
    (monitor : WmiMonitorIDObj) (rest' : list WmiMonitorIDObj)
    (info' : list Monitor) (a' : nat)
    (serial_raw friendly word vcp_model : string) :
  Py.index (Py.split "\" (wb_InstanceName m)) 1 = Ok wmi_model ->
  _monitor_brand_lookup w (Py.slice_to 3 wmi_model) = None ->
  Py.bytes_decode (SerialNumberID monitor) = Ok serial_raw ->
  Py.bytes_decode (UserFriendlyName monitor) = Ok friendly ->
  Py.split " " (Py.remove NUL None friendly) = [word; vcp_model] ->
  _monitor_brand_lookup w (Py.capitalize (Py.lower word)) = None ->
  (exists r,
     wmi_loop w d (m :: rest) info a = wmi_loop w d rest (info ++ [r]) (S a)
     /\ In r (wmi_loop w d (m :: rest) info a)
     /\ model r = wmi_model
     /\ manufacturer r = None
     /\ manufacturer_id r = Some (Py.slice_to 3 wmi_model))
  /\ (exists r,
        vcp_loop w d (monitor :: rest') info' a' = vcp_loop w d rest' (info' ++ [r]) (S a')
        /\ In r (vcp_loop w d (monitor :: rest') info' a')
        /\ model r = vcp_model
        /\ manufacturer r = Some (Py.capitalize (Py.lower word))
        /\ manufacturer_id r = None).
Proof.
  intros Hmodel Hbrand Hserial Hfriendly Hsplit Hbrand'. split.
  - cbn [wmi_loop]. rewrite Hmodel, Hbrand. eexists. split; [reflexivity|].
    split; [|done].
    match goal with |- In ?r (wmi_loop w d rest (info ++ [?r]) ?n) =>
      destruct (wmi_loop_prefix w d rest (info ++ [r]) n) as [tl ->] end.
    apply in_or_app. left. apply in_or_app. right. by left.
  - cbn [vcp_loop]. unfold vcp_record. rewrite Hserial, Hfriendly, Hsplit, Hbrand'.
    eexists. split; [reflexivity|]. split; [|done].
    match goal with |- In ?r (vcp_loop w d rest' (info' ++ [?r]) ?n) =>
      destruct (vcp_loop_prefix w d rest' (info' ++ [r]) n) as [tl ->] end.
    apply in_or_app. left. apply in_or_app. right. by left.
Qed.

Lemma unknown_brand_record_kept_witness :
  (exists r,
     wmi_loop Examples.unknown_brands None [Examples.panel] [] 0
       = wmi_loop Examples.unknown_brands None [] ([] ++ [r]) 1
     /\ In r (wmi_loop Examples.unknown_brands None [Examples.panel] [] 0)
     /\ model r = "BNQ78A7"
     /\ manufacturer r = None
     /\ manufacturer_id r = Some (Py.slice_to 3 "BNQ78A7"))
  /\ (exists r,
        vcp_loop Examples.unknown_brands None [Examples.panel_id] [] 0
          = vcp_loop Examples.unknown_brands None [] ([] ++ [r]) 1
        /\ In r (vcp_loop Examples.unknown_brands None [Examples.panel_id] [] 0)
        /\ model r = "GL2"
        /\ manufacturer r = Some (Py.capitalize (Py.lower "BenQ"))
        /\ manufacturer_id r = None).
Proof.
  eapply (unknown_brand_record_kept Examples.unknown_brands None
            Examples.panel [] [] 0 "BNQ78A7" Examples.panel_id [] [] 0
            _ _ "BenQ" "GL2");
    vm_compute; reflexivity.
Defined.

(** ** The dispatch loop *)

Lemma dispatch_loop_outcomes w meta args kwargs monitors output errors s :
  dispatch_loop w meta args kwargs monitors output errors s =
    (Ok (output ++ (output_slot <$> call_outcomes w meta args kwargs monitors s),
         errors ++ error_entries monitors (call_outcomes w meta args kwargs monitors s)),
     state_after_calls w meta args kwargs monitors s).
Proof.
  revert output errors s.
  induction monitors as [|m ms IH]; intros output errors s.
  - simpl. unfold ret. by rewrite !app_nil_r.
  - cbn [dispatch_loop call_outcomes state_after_calls error_entries].
    unfold bind at 1. unfold try_except, bind at 1.
    destruct (call_brightness w (method m) meta args (DStr (serial m)) kwargs s)
      as [[v|e] s']; cbn [fst snd]; unfold ret at 1; rewrite IH;
      cbn [fmap list_fmap output_slot error_entries]; by rewrite <- !app_assoc.
Qed.

Lemma has_result_forallb output :
  negb (forallb is_None output) = has_result output.
Proof.
  induction output as [|v l IH]; [done|]. simpl.
  rewrite <- IH. by destruct (is_None v).
Qed.

(** What [__set_and_get_brightness] does once the query is resolved. *)
Lemma set_and_get_resolved w args display method meta kwargs s monitors s1 :
  filter_monitors w display None method s = (Ok monitors, s1) ->
  __set_and_get_brightness w args display method meta kwargs s =
    (let outcomes := call_outcomes w meta args kwargs monitors s1 in
     let output := output_slot <$> outcomes in
     if has_result output then Ok (one_or_list (flatten_list output))
     else Raise (mkExn Exception_ (error_message (error_entries monitors outcomes))),
     state_after_calls w meta args kwargs monitors s1).
Proof.
  intros Hres. unfold __set_and_get_brightness.
  unfold bind at 1. unfold try_except, bind at 1. rewrite Hres.
  unfold ret at 1. unfold bind at 1. unfold bind at 1.
  rewrite dispatch_loop_outcomes. cbn [app].
  rewrite <- has_result_forallb.
  destruct (output_slot <$> call_outcomes w meta args kwargs monitors s1) as [|v l] eqn:Hout;
    [done|].
  destruct (negb (forallb is_None (v :: l))); done.
Qed.

(** What it does when the query is not resolved. *)
Lemma set_and_get_unresolved w args display method meta kwargs s e s1 :
  filter_monitors w display None method s = (Raise e, s1) ->
  __set_and_get_brightness w args display method meta kwargs s =
    (Raise (mkExn Exception_
              (error_message [(EmptyString, kind_name (exn_kind e), exn_msg e)])), s1).
Proof.
  intros Hres. unfold __set_and_get_brightness.
  unfold bind at 1. unfold try_except, bind at 1. rewrite Hres. done.
Qed.

Lemma top_level_unfold w meta value display method kwargs s :
  kwargs !! "meta_method" = None ->
  top_level w meta value display method kwargs s =
    __set_and_get_brightness w (top_level_args meta value) display method meta kwargs s.
Proof.
  intros Hk. destruct meta; simpl; unfold get_brightness, set_brightness; by rewrite Hk.
Qed.

(** ** Resolution failures *)

Lemma filter_none {A} (p : A -> bool) (l : list A) :
  (forall x, In x l -> p x = false) -> List.filter p l = [].
Proof.
  induction l as [|x l IH]; intros H; [done|]. simpl.
  rewrite (H x) by (by left). apply IH. intros y Hy. apply H. by right.
Qed.

Lemma filter_matches_nothing q f (haystack : list Monitor) :
  In f query_fields ->
  matches_nothing q haystack = true ->
  List.filter (fun m => field_matches q (f m)) haystack = [].
Proof.
  intros Hf Hno. apply filter_none. intros m Hm.
  unfold matches_nothing in Hno. rewrite forallb_forall in Hno.
  specialize (Hno m Hm). rewrite forallb_forall in Hno.
  specialize (Hno f Hf). by apply negb_true_iff in Hno.
Qed.

Lemma match_fields_nothing q haystack fields :
  (forall f, In f fields -> In f query_fields) ->
  matches_nothing q haystack = true ->
  match_fields q haystack fields =
    Raise (mkExn LookupError "no monitor matches the query").
Proof.
  intros Hsub Hno. induction fields as [|f fs IH]; [done|].
  simpl. rewrite filter_matches_nothing; [|apply Hsub; by left|done].
  apply IH. intros g Hg. apply Hsub. by right.
Qed.

Lemma matches_nothing_restrict q c haystack :
  matches_nothing q haystack = true ->
  matches_nothing q (restrict c haystack) = true.
Proof.
  destruct c as [c|]; [|done]. simpl. unfold matches_nothing.
  rewrite !forallb_forall. intros H m Hm. apply H.
  apply List.filter_In in Hm. tauto.
Qed.

(** A string that matches no record is a [LookupError] of the resolution
    step. *)
Lemma filter_monitors_unmatched w q method s haystack s1 :
  list_monitors_info w method s = (Ok haystack, s1) ->
  matches_nothing q haystack = true ->
  filter_monitors w (DStr q) None method s =
    (Raise (mkExn LookupError "no monitor matches the query"), s1).
Proof.
  intros Hinfo Hno. unfold filter_monitors, bind. rewrite Hinfo.
  unfold lift, filter_haystack.
  rewrite match_fields_nothing; [done|done|].
  by apply matches_nothing_restrict.
Qed.

(** C3: for a string query that matches no record on any field,
    [set_brightness] does not raise the [LookupError] of the resolution
    step: it catches it and raises a plain [Exception] whose message quotes
    it. *)
Theorem unmatched_query_raises_plain_exception w value q method kwargs s haystack s1 :
  kwargs !! "meta_method" = None ->
  list_monitors_info w method s = (Ok haystack, s1) ->
  matches_nothing q haystack = true ->
  set_brightness w value (DStr q) method kwargs s =
    (Raise (mkExn Exception_
              (error_message
                 [(EmptyString, "LookupError", "no monitor matches the query")])),
     s1).
Proof.
  intros Hk Hinfo Hno. unfold set_brightness. rewrite Hk.
  by rewrite (set_and_get_unresolved _ _ _ _ _ _ _ _ _
                (filter_monitors_unmatched _ _ _ _ _ _ Hinfo Hno)).
Qed.

Lemma unmatched_query_raises_plain_exception_witness :
  exists s1,
    set_brightness Examples.two_monitors 50 (DStr "nonexistent-serial-XYZ") None ∅
      init_state =
    (Raise (mkExn Exception_
              (error_message
                 [(EmptyString, "LookupError", "no monitor matches the query")])),
     s1).
Proof.
  eexists.
  eapply (unmatched_query_raises_plain_exception Examples.two_monitors 50
            "nonexistent-serial-XYZ" None ∅ init_state
            [Examples.benq_wmi; Examples.acme_vcp]);
    vm_compute; reflexivity.
Defined.

(** ** Total failure of the dispatch *)

Lemma call_outcomes_length w meta args kwargs monitors s :
  length (call_outcomes w meta args kwargs monitors s) = length monitors.
Proof.
  revert s. induction monitors as [|m ms IH]; intros s; simpl; [done|].
  by rewrite IH.
Qed.

Lemma all_Raise_inv {A} (outcomes : list (result A)) :
  forallb is_Raise outcomes = true ->
  exists exs, outcomes = Raise <$> exs.
Proof.
  induction outcomes as [|r l IH]; intros H.
  - by exists [].
  - simpl in H. apply andb_true_iff in H as [Hr Hl].
    destruct r as [|e]; [done|]. destruct (IH Hl) as [exs ->].
    by exists (e :: exs).
Qed.

Lemma error_entries_all_raise monitors exs :
  length exs = length monitors ->
  error_entries monitors (Raise <$> exs) = zip_with error_entry monitors exs.
Proof.
  revert exs. induction monitors as [|m ms IH]; intros [|e exs] Hlen; try done.
  simpl in *. f_equal. apply IH. lia.
Qed.

Lemma output_all_raise (exs : list exn) :
  has_result (output_slot <$> (Raise <$> exs)) = false.
Proof. induction exs as [|e l IH]; [done|]. simpl. exact IH. Qed.

Lemma str_app_cons c s t : String c s +:+ t = String c (s +:+ t).
Proof. reflexivity. Qed.

Lemma str_app_nil_r s : s +:+ EmptyString = s.
Proof. induction s as [|c s IH]; [done|]. by rewrite str_app_cons, IH. Qed.

Lemma str_app_assoc s t u : (s +:+ t) +:+ u = s +:+ (t +:+ u).
Proof. induction s as [|c s IH]; [done|]. by rewrite !str_app_cons, IH. Qed.

Lemma error_lines_fold errors acc :
  foldl (fun msg e => msg +:+ error_line e) acc errors =
    acc +:+ Py.join (error_line <$> errors).
Proof.
  revert acc. induction errors as [|e l IH]; intros acc.
  - simpl. by rewrite str_app_nil_r.
  - cbn [foldl fmap list_fmap]. rewrite IH. unfold Py.join. cbn [foldr].
    by rewrite str_app_assoc.
Qed.

(** With at least one entry the message is the line feed and one line per
    entry. *)
Lemma error_message_lines errors :
  errors <> [] ->
  error_message errors = NL +:+ Py.join (error_line <$> errors).
Proof.
  intros Hne. unfold error_message. rewrite error_lines_fold.
  destruct errors as [|e l]; [done|]. reflexivity.
Qed.



(** ** Results of a dispatch *)

Lemma flatten_list_keeps_None output :
  In PNone output -> In PNone (flatten_list output).
Proof.
  unfold flatten_list. induction output as [|v l IH]; [done|].
  intros [->|Hin]; simpl.
  - by left.
  - apply in_or_app. right. by apply IH.
Qed.

(** C7: when some per-record call of [get_brightness] yields a value, the
    operation returns the list [output], which has one slot per resolved
    record ([None] where the call raised or returned [None]), flattened
    one level: its only element when one remains, the list otherwise. *)
Theorem get_brightness_result_shape w display method kwargs s monitors s1 :
  kwargs !! "meta_method" = None ->
  filter_monitors w display None method s = (Ok monitors, s1) ->
  has_result (output_slot <$> call_outcomes w meta_get [] kwargs monitors s1) = true ->
  exists output s2,
    output = output_slot <$> call_outcomes w meta_get [] kwargs monitors s1
    /\ length output = length monitors
    /\ (In PNone output -> In PNone (flatten_list output))
    /\ get_brightness w display method kwargs s =
         (Ok (match flatten_list output with
              | [v] => v
              | values => PList values
              end), s2).
Proof.
  intros Hk Hres Hsome.
  exists (output_slot <$> call_outcomes w meta_get [] kwargs monitors s1),
         (state_after_calls w meta_get [] kwargs monitors s1).
  split; [reflexivity|]. split_and!.
  - by rewrite length_fmap, call_outcomes_length.
  - apply flatten_list_keeps_None.
  - unfold get_brightness. rewrite Hk.
    rewrite (set_and_get_resolved _ _ _ _ _ _ _ _ _ Hres). cbn zeta.
    rewrite Hsome. unfold one_or_list.
    by destruct (flatten_list _) as [|v [|v' l]].
Qed.

Lemma get_brightness_result_shape_witness :
  exists output s2,
    output = output_slot <$> call_outcomes Examples.two_monitors meta_get [] ∅
               [Examples.benq_wmi; Examples.acme_vcp]
               (list_monitors_info Examples.two_monitors None init_state).2
    /\ length output = length [Examples.benq_wmi; Examples.acme_vcp]
    /\ (In PNone output -> In PNone (flatten_list output))
    /\ get_brightness Examples.two_monitors DNone None ∅ init_state =
         (Ok (match flatten_list output with
              | [v] => v
              | values => PList values
              end), s2).
Proof.
  eapply (get_brightness_result_shape Examples.two_monitors DNone None ∅ init_state
            [Examples.benq_wmi; Examples.acme_vcp]);
    vm_compute; reflexivity.
Defined.

(** ** [no_return] *)

Lemma bind_slot_None {A} (m : M A) (k : A -> M pyval) s :
  (forall a s', output_slot (k a s').1 = PNone) ->
  output_slot (bind m k s).1 = PNone.
Proof.
  intros Hk. unfold bind. destruct (m s) as [[a|e] s']; [apply Hk|done].
Qed.

(** With a true [no_return], a per-record [set_brightness] call that does
    not raise returns [None]. *)
Lemma call_set_no_return w cls value d kwargs nr s :
  kwargs !! "no_return" = Some nr -> truthy nr = true ->
  output_slot (call_brightness w cls meta_set [value] d kwargs s).1 = PNone.
Proof.
  intros Hnr Htrue. unfold call_brightness.
  case_bool_decide; [|done]. rewrite Hnr. cbn [default].
  destruct cls; unfold WMI_set_brightness, VCP_set_brightness;
    repeat (apply bind_slot_None; intros); unfold id; by rewrite Htrue.
Qed.

Lemma no_return_outputs w value kwargs nr monitors s :
  kwargs !! "no_return" = Some nr -> truthy nr = true ->
  has_result (output_slot <$> call_outcomes w meta_set [value] kwargs monitors s) = false.
Proof.
  intros Hnr Htrue. revert s.
  induction monitors as [|m ms IH]; intros s; [done|].
  cbn [call_outcomes fmap list_fmap has_result existsb].
  rewrite (call_set_no_return _ _ _ _ _ _ _ Hnr Htrue). apply IH.
Qed.

(** C6: with a true [no_return], [set_brightness] raises even when the
    query is resolved and set calls succeed: each successful call returns
    [None], [output] holds nothing else, and line 543 takes that for total
    failure.  When every call succeeded the message is the one of line
    552. *)
Theorem no_return_set_raises w value display method kwargs nr s monitors s1 :
  kwargs !! "meta_method" = None ->
  kwargs !! "no_return" = Some nr ->
  truthy nr = true ->
  filter_monitors w display None method s = (Ok monitors, s1) ->
  existsb is_Ok (call_outcomes w meta_set [value] kwargs monitors s1) = true ->
  exists s2,
    set_brightness w value display method kwargs s =
      (Raise (mkExn Exception_
                (error_message
                   (error_entries monitors
                      (call_outcomes w meta_set [value] kwargs monitors s1)))), s2)
    /\ (forallb is_Ok (call_outcomes w meta_set [value] kwargs monitors s1) = true ->
        error_entries monitors (call_outcomes w meta_set [value] kwargs monitors s1) = []
        /\ error_message [] =
             NL +:+ TAB +:+ "no valid output was received from brightness methods").
Proof.
  intros Hk Hnr Htrue Hres _. eexists. split.
  - unfold set_brightness. rewrite Hk.
    rewrite (set_and_get_resolved _ _ _ _ _ _ _ _ _ Hres). cbn zeta.
    rewrite (no_return_outputs _ _ _ _ _ _ Hnr Htrue). reflexivity.
  - intros Hall. split; [|reflexivity].
    generalize dependent (call_outcomes w meta_set [value] kwargs monitors s1).
    clear. induction monitors as [|m ms IH]; intros [|[v|e] l] H; try done.
    simpl in *. by apply IH.
Qed.

Lemma no_return_set_raises_witness :
  exists s2,
    set_brightness Examples.two_monitors 50 DNone None {["no_return" := PBool true]}
      init_state =
      (Raise (mkExn Exception_
                (error_message
                   (error_entries [Examples.benq_wmi; Examples.acme_vcp]
                      (call_outcomes Examples.two_monitors meta_set [50]
                         {["no_return" := PBool true]}
                         [Examples.benq_wmi; Examples.acme_vcp]
                         (list_monitors_info Examples.two_monitors None init_state).2)))), s2)
    /\ (forallb is_Ok
          (call_outcomes Examples.two_monitors meta_set [50]
             {["no_return" := PBool true]}
             [Examples.benq_wmi; Examples.acme_vcp]
             (list_monitors_info Examples.two_monitors None init_state).2) = true ->
        error_entries [Examples.benq_wmi; Examples.acme_vcp]
          (call_outcomes Examples.two_monitors meta_set [50]
             {["no_return" := PBool true]}
             [Examples.benq_wmi; Examples.acme_vcp]
             (list_monitors_info Examples.two_monitors None init_state).2) = []
        /\ error_message [] =
             NL +:+ TAB +:+ "no valid output was received from brightness methods").
Proof.
  eapply (no_return_set_raises Examples.two_monitors 50 DNone None
            {["no_return" := PBool true]} (PBool true) init_state
            [Examples.benq_wmi; Examples.acme_vcp]);
    vm_compute; reflexivity.
Defined.

(** ** Physical monitor handles *)

Lemma yield_items_releases items k :
  releases_on_resume k -> releases_on_resume (yield_items items k).
Proof.
  intros Hk. induction items as [|h t IH]; [done|]. simpl. by constructor.
Qed.

Lemma iter_monitors_releases w monitors :
  releases_on_resume (iter_monitors w monitors).
Proof.
  induction monitors as [|m ms IH]; simpl; [constructor|].
  destruct (GetNumberOfPhysicalMonitorsFromHMONITOR w m) as [count|]; [|constructor].
  destruct (0 <? count)%nat; [|done].
  destruct (GetPhysicalMonitorsFromHMONITOR w m count); [|constructor].
  by apply yield_items_releases.
Qed.

Lemma VCP_iter_releases w : releases_on_resume (VCP_iter_physical_monitors w).
Proof.
  unfold VCP_iter_physical_monitors.
  destruct (user32_EnumDisplayMonitors w); [apply iter_monitors_releases|constructor].
Qed.

Lemma take_gen_resume {Y} n ev (k : gen Y) s :
  take_gen (S n) (GDo ev k) s =
    take_gen (S n) k (mkState (cache s) (clock s) (events s ++ [ev])).
Proof. reflexivity. Qed.

(** What a consumer that takes at most [n] handles leaves in the log: a
    release for every handle it was given, except the last one when it
    stopped there. *)
Lemma take_gen_events g :
  releases_on_resume g ->
  forall n s hs s',
    take_gen n g s = (Ok hs, s') ->
    events s' = events s ++
      (DestroyPhysicalMonitor <$> (if decide (length hs = n) then removelast hs else hs)).
Proof.
  induction 1 as [|e|h k Hk IH]; intros n s hs s' Hrun.
  - destruct n; cbv in Hrun; injection Hrun as <- <-; simpl;
      try case_decide; by rewrite app_nil_r.
  - destruct n; cbv in Hrun; [|done]. injection Hrun as <- <-. simpl.
    by rewrite app_nil_r.
  - destruct n as [|[|n]].
    + cbv in Hrun. injection Hrun as <- <-. simpl. by rewrite app_nil_r.
    + cbv in Hrun. injection Hrun as <- <-. simpl. by rewrite app_nil_r.
    + change (take_gen (S (S n)) (GYield h (GDo (DestroyPhysicalMonitor h) k)) s)
        with (bind (take_gen (S n) (GDo (DestroyPhysicalMonitor h) k))
                (fun ys => ret (h :: ys)) s) in Hrun.
      unfold bind in Hrun. rewrite take_gen_resume in Hrun.
      destruct (take_gen (S n) k _) as [[ys|e] s2] eqn:Hk2; [|done].
      injection Hrun as <- <-.
      rewrite (IH _ _ _ _ Hk2). simpl. rewrite <- app_assoc. simpl.
      destruct ys as [|y ys].
      * repeat case_decide; simpl in *; try lia; done.
      * repeat case_decide; simpl in *; try lia; done.
Qed.

(** C9: a consumer that stops after taking [n >= 1] handles from
    [VCP.iter_physical_monitors()] leaves the last handle it was given
    unreleased: the log gains a [DestroyPhysicalMonitor] for the handles
    before it and none for it. *)
Theorem early_stop_leaks_last_handle w n s hs s' :
  take_gen n (VCP_iter_physical_monitors w) s = (Ok hs, s') ->
  length hs = n ->
  hs <> [] ->
  events s' = events s ++ (DestroyPhysicalMonitor <$> removelast hs)
  /\ length (destroyed (DestroyPhysicalMonitor <$> removelast hs)) = (length hs - 1)%nat.
Proof.
  intros Hrun Hlen Hne. split.
  - rewrite (take_gen_events _ (VCP_iter_releases w) _ _ _ _ Hrun).
    by rewrite decide_True.
  - clear. induction hs as [|h [|h' t] IH]; [done|done|].
    change (removelast (h :: h' :: t)) with (h :: removelast (h' :: t)).
    cbn [fmap list_fmap destroyed omap list_omap] in *.
    unfold destroyed in IH. simpl in *. rewrite IH. lia.
Qed.

Lemma early_stop_leaks_last_handle_witness :
  events (take_gen 1 (VCP_iter_physical_monitors Examples.two_monitors) init_state).2
    = events init_state ++ (DestroyPhysicalMonitor <$> removelast [101])
  /\ length (destroyed (DestroyPhysicalMonitor <$> removelast [101])) = (length [101] - 1)%nat.
Proof.
  eapply (early_stop_leaks_last_handle Examples.two_monitors 1 init_state [101]);
    [vm_compute; reflexivity | reflexivity | discriminate].
Defined.

(** ** [VCP.get_brightness()] without a display *)

(** The body of the loop when [all_monitors] was never bound: a handle
    whose feature read fails is skipped, one whose read succeeds ends the
    call with the [NameError] of line 410. *)
Lemma get_brightness_body_unbound w h count values s :
  get_brightness_body w DNone None None h (count, values) s =
    if readable w h
    then (Raise (mkExn NameError "name 'all_monitors' is not defined"), s)
    else (Ok (S count, values), s).
Proof.
  unfold get_brightness_body, readable.
  unfold bind at 1. unfold try_except, bind at 1. cbn [brightness_key lift].
  destruct (GetVCPFeatureAndVCPFeatureReply w h) as [v|]; reflexivity.
Qed.

Lemma for_gen_unbound w g :
  forall acc s,
    existsb (readable w) (gen_yields g) = true ->
    exists s',
      for_gen g (get_brightness_body w DNone None None) acc s =
        (Raise (mkExn NameError "name 'all_monitors' is not defined"), s').
Proof.
  induction g as [|e|h k IH|ev k IH]; intros [count values] s Hex; try done.
  - cbn [for_gen gen_yields existsb] in *. unfold bind.
    rewrite get_brightness_body_unbound.
    destruct (readable w h); [by eexists|]. by apply IH.
  - cbn [for_gen gen_yields] in *. unfold bind, emit. by apply IH.
Qed.

(** C10: [VCP.get_brightness()] called without a display raises
    [NameError] as soon as the feature read of a handle it is given
    succeeds. *)
Theorem VCP_get_brightness_all_NameError w s :
  existsb (readable w) (gen_yields (VCP_iter_physical_monitors w)) = true ->
  exists s',
    VCP_get_brightness w DNone s =
      (Raise (mkExn NameError "name 'all_monitors' is not defined"), s').
Proof.
  intros Hex. unfold VCP_get_brightness.
  unfold bind at 1. unfold ret at 1. cbn [fst snd]. unfold bind.
  destruct (for_gen_unbound w _ (O, []) s Hex) as [s' ->]. by eexists.
Qed.

Lemma VCP_get_brightness_all_NameError_witness :
  exists s',
    VCP_get_brightness Examples.two_monitors DNone init_state =
      (Raise (mkExn NameError "name 'all_monitors' is not defined"), s').
Proof.
  apply (VCP_get_brightness_all_NameError Examples.two_monitors init_state).
  vm_compute; reflexivity.
Defined.

(** * Further properties of the module *)

(** ** Enumeration never raises *)

Lemma try_except_ret_total {A} (m : M A) (a : A) s :
  exists r s', try_except m (fun _ => ret a) s = (Ok r, s').
Proof.
  unfold try_except. destruct (m s) as [[r|e] s']; by eexists _, _.
Qed.

Lemma WMI_enumerate_total w s :
  exists info s', WMI_enumerate w s = (Ok info, s').
Proof. apply try_except_ret_total. Qed.

Lemma VCP_enumerate_total w s :
  exists info s', VCP_enumerate w s = (Ok info, s').
Proof. apply try_except_ret_total. Qed.

Lemma cached_or_computed key (compute : M (list Monitor)) s :
  (forall s0, exists info s', compute s0 = (Ok info, s')) ->
  exists info s',
    try_except (__cache__get_info key [])
      (fun _ =>
         let* info := compute in
         let* _ := __cache__store key (CInfo info) None [] in
         ret info) s = (Ok info, s').
Proof.
  intros Htotal. unfold try_except, __cache__get_info.
  destruct (cache_lookup key [] s) as [[| l |]|];
    try (by eexists _, _);
    unfold cache_miss, raise, bind;
    destruct (Htotal s) as (info & s' & ->); by eexists _, _.
Qed.

Lemma WMI_get_display_info_total w s :
  exists info s', WMI_get_display_info w DNone s = (Ok info, s').
Proof.
  unfold WMI_get_display_info. unfold bind at 1.
  destruct (cached_or_computed "wmi_monitor_info" (WMI_enumerate w) s
              (WMI_enumerate_total w)) as (info & s' & ->).
  by eexists _, _.
Qed.

(** [VCP.get_display_info] raises for no [display] at all: a query that
    fails (an index out of range, a string that matches nothing, a value
    of another type) returns the whole list, lines 309-314. *)
Theorem VCP_get_display_info_never_raises w display s :
  exists r s', VCP_get_display_info w display s = (Ok r, s').
Proof.
  unfold VCP_get_display_info. unfold bind at 1.
  destruct (cached_or_computed "vcp_monitor_info" (VCP_enumerate w) s
              (VCP_enumerate_total w)) as (info & s' & ->).
  destruct display; try (by eexists _, _);
    destruct (filter_haystack _ info (Some "vcp")) as [[|one [|two found]]|e];
    by eexists _, _.
Qed.

Lemma VCP_get_display_info_all w s :
  exists info s', VCP_get_display_info w DNone s = (Ok (DictList info), s').
Proof.
  unfold VCP_get_display_info. unfold bind at 1.
  destruct (cached_or_computed "vcp_monitor_info" (VCP_enumerate w) s
              (VCP_enumerate_total w)) as (info & s' & ->).
  by eexists _, _.
Qed.

(** ** What the merged list holds *)

Lemma merge_records_NoDup_edids l acc :
  NoDup acc.2 -> NoDup (merge_records l acc).2.
Proof.
  revert acc. induction l as [|i l IH]; intros [info edids] Hnd; simpl in *; [done|].
  case_bool_decide as Hi; apply IH; simpl; [done|].
  apply NoDup_app. split_and!; [done| |apply NoDup_singleton].
  intros x Hx ->%list_elem_of_singleton. done.
Qed.

Lemma merged_NoDup_edids l : NoDup (edid <$> merged l).
Proof.
  unfold merged. rewrite <- merge_records_edids by done.
  apply merge_records_NoDup_edids. constructor.
Qed.

Lemma merge_records_sublist l acc :
  sublist (merge_records l acc).1 (acc.1 ++ l).
Proof.
  revert acc. induction l as [|i l IH]; intros [info edids]; simpl.
  - by rewrite app_nil_r.
  - case_bool_decide.
    + etrans; [apply IH|]. simpl. apply sublist_app; [done|]. by apply sublist_cons.
    + etrans; [apply IH|]. simpl. by rewrite <- app_assoc.
Qed.

Lemma merge_records_covers l acc r :
  acc.2 = edid <$> acc.1 ->
  r ∈ acc.1 ++ l ->
  exists r', r' ∈ (merge_records l acc).1 /\ edid r' = edid r.
Proof.
  revert acc r. induction l as [|i l IH]; intros [info edids] r Hacc Hr; simpl in *.
  - rewrite app_nil_r in Hr. by exists r.
  - case_bool_decide as Hi.
    + apply elem_of_app in Hr as [Hr|Hr].
      * apply IH; [done|]. apply elem_of_app. by left.
      * apply elem_of_cons in Hr as [->|Hr].
        -- subst edids. apply list_elem_of_fmap in Hi as (r0 & Heq & Hr0).
           destruct (IH (info, edid <$> info) r0 eq_refl) as (r' & Hr' & Hedid).
           { apply elem_of_app. by left. }
           exists r'. split; [done|]. congruence.
        -- apply IH; [done|]. apply elem_of_app. by right.
    + apply IH; simpl; [by rewrite fmap_app, Hacc|].
      rewrite <- app_assoc. done.
Qed.

(** On a miss of its cache entry [list_monitors_info()] does not raise,
    and no two records of its result have the same [edid]. *)
Theorem list_monitors_info_distinct_edids w s :
  cache_lookup "windows_monitors_info" [("method", None)] s = None ->
  exists info s',
    list_monitors_info w None s = (Ok info, s')
    /\ NoDup (edid <$> info).
Proof.
  intros Hmiss.
  destruct (WMI_get_display_info_total w s) as (la & s1 & Ha).
  destruct (VCP_get_display_info_all w s1) as (lb & s2 & Hb).
  eexists _, _. split; [by eapply list_monitors_info_miss|].
  apply merged_NoDup_edids.
Qed.

Lemma list_monitors_info_distinct_edids_witness :
  exists info s',
    list_monitors_info Examples.no_descriptors None init_state = (Ok info, s')
    /\ NoDup (edid <$> info).
Proof.
  apply (list_monitors_info_distinct_edids Examples.no_descriptors init_state).
  vm_compute; reflexivity.
Defined.

(** The merged list keeps the order in which the channels report (WMI's
    records, then VCP's), adds nothing, and loses no [edid]: for every
    record a channel reports, a record with the same [edid] is in it. *)
Theorem list_monitors_info_sublist_cover w s la lb s1 s2 :
  cache_lookup "windows_monitors_info" [("method", None)] s = None ->
  WMI_get_display_info w DNone s = (Ok la, s1) ->
  VCP_get_display_info w DNone s1 = (Ok (DictList lb), s2) ->
  exists info s3,
    list_monitors_info w None s = (Ok info, s3)
    /\ sublist info (la ++ lb)
    /\ forall r, r ∈ la ++ lb -> exists r', r' ∈ info /\ edid r' = edid r.
Proof.
  intros Hmiss Ha Hb.
  eexists _, _. split; [by eapply list_monitors_info_miss|]. split.
  - apply (merge_records_sublist (la ++ lb) ([], [])).
  - intros r Hr. by apply (merge_records_covers (la ++ lb) ([], [])).
Qed.

Lemma list_monitors_info_sublist_cover_witness :
  exists info s3,
    list_monitors_info Examples.two_monitors None init_state = (Ok info, s3)
    /\ sublist info ([Examples.benq_wmi] ++ [Examples.benq_vcp; Examples.acme_vcp])
    /\ forall r, r ∈ [Examples.benq_wmi] ++ [Examples.benq_vcp; Examples.acme_vcp] ->
         exists r', r' ∈ info /\ edid r' = edid r.
Proof.
  eapply (list_monitors_info_sublist_cover Examples.two_monitors init_state);
    vm_compute; reflexivity.
Defined.

(** ** The [method] argument of [list_monitors_info] *)

Lemma method_is_lower c m :
  method_is c m = true <-> Py.lower c = Py.lower (method_name m).
Proof.
  unfold method_is. rewrite String.eqb_eq. split; congruence.
Qed.

(** A [method] that is neither 'wmi' nor 'vcp', case ignored, is a
    [ValueError], raised before any channel is consulted. *)
Theorem list_monitors_info_invalid_method w c s :
  cache_lookup "windows_monitors_info" [("method", Some c)] s = None ->
  Py.lower c <> "wmi" ->
  Py.lower c <> "vcp" ->
  list_monitors_info w (Some c) s =
    (Raise (mkExn ValueError "method kwarg must be 'wmi' or 'vcp'"), s).
Proof.
  intros Hmiss Hwmi Hvcp.
  unfold list_monitors_info, try_except. rewrite (get_info_miss _ _ _ Hmiss).
  unfold bind at 1. cbn [List.filter].
  destruct (method_is c WMI_cls) eqn:H1; [apply method_is_lower in H1; done|].
  destruct (method_is c VCP_cls) eqn:H2; [apply method_is_lower in H2; done|].
  reflexivity.
Qed.

Lemma list_monitors_info_invalid_method_witness :
  list_monitors_info Examples.two_monitors (Some "ddc") init_state =
    (Raise (mkExn ValueError "method kwarg must be 'wmi' or 'vcp'"), init_state).
Proof.
  apply (list_monitors_info_invalid_method Examples.two_monitors "ddc" init_state);
    vm_compute; [reflexivity|discriminate|discriminate].
Defined.

(** With [method] naming a channel, in any letter case, only that channel
    is consulted: the result is its own list less the later duplicates of
    an [edid], stored under that [method]. *)
Theorem list_monitors_info_one_channel w c m s l s1 :
  cache_lookup "windows_monitors_info" [("method", Some c)] s = None ->
  Py.lower c = Py.lower (method_name m) ->
  get_display_info_of w m s = (Ok l, s1) ->
  list_monitors_info w (Some c) s =
    (Ok (merged l),
     stored "windows_monitors_info" (CInfo (merged l)) None [("method", Some c)] s1).
Proof.
  intros Hmiss Hc Hl.
  unfold list_monitors_info, try_except. rewrite (get_info_miss _ _ _ Hmiss).
  unfold bind at 1.
  assert (List.filter (method_is c) [WMI_cls; VCP_cls] = [m]) as ->.
  { cbn [List.filter]. destruct m.
    - rewrite (proj2 (method_is_lower c WMI_cls) Hc).
      destruct (method_is c VCP_cls) eqn:H2; [|done].
      apply method_is_lower in H2. rewrite H2 in Hc. discriminate Hc.
    - rewrite (proj2 (method_is_lower c VCP_cls) Hc).
      destruct (method_is c WMI_cls) eqn:H1; [|done].
      apply method_is_lower in H1. rewrite H1 in Hc. discriminate Hc. }
  unfold ret at 1. unfold bind at 1. cbn [merge_methods].
  unfold bind at 1. rewrite Hl. reflexivity.
Qed.

Lemma list_monitors_info_one_channel_witness :
  list_monitors_info Examples.two_monitors (Some "VCP") init_state =
    (Ok (merged [Examples.benq_vcp; Examples.acme_vcp]),
     stored "windows_monitors_info"
       (CInfo (merged [Examples.benq_vcp; Examples.acme_vcp])) None
       [("method", Some "VCP")]
       (get_display_info_of Examples.two_monitors VCP_cls init_state).2).
Proof.
  apply (list_monitors_info_one_channel Examples.two_monitors "VCP" VCP_cls init_state);
    vm_compute; reflexivity.
Defined.

(** ** What is cached stays *)

Lemma bind_Ok_inv {A B} (m : M A) (k : A -> M B) s b s' :
  bind m k s = (Ok b, s') ->
  exists a s1, m s = (Ok a, s1) /\ k a s1 = (Ok b, s').
Proof.
  unfold bind. destruct (m s) as [[a|e] s1]; [|done]. by exists a, s1.
Qed.

Lemma lookup_stored key v params s :
  cache_lookup key params (stored key v None params s) = Some v.
Proof.
  unfold cache_lookup, stored, __cache__store. cbn [snd cache].
  by rewrite lookup_insert_eq.
Qed.

Lemma store_then_ret key v params {A} (a : A) s r s' :
  bind (__cache__store key v None params) (fun _ => ret a) s = (Ok r, s') ->
  r = a /\ s' = stored key v None params s.
Proof. intros H. by injection H as <- <-. Qed.

(** A list [list_monitors_info] has returned is what every later call
    with the same [method] returns, whatever the system has become: the
    entry never expires and nothing is enumerated again. *)
Theorem list_monitors_info_memoized w w' method s info s' :
  list_monitors_info w method s = (Ok info, s') ->
  list_monitors_info w' method s' = (Ok info, s').
Proof.
  intros Hrun.
  assert (cache_lookup "windows_monitors_info" [("method", method)] s'
          = Some (CInfo info)) as Hhit.
  { unfold list_monitors_info, try_except, __cache__get_info in Hrun.
    destruct (cache_lookup _ _ s) as [[| l |]|] eqn:Hs;
      try (injection Hrun as <- <-; exact Hs);
      unfold cache_miss, raise in Hrun;
      apply bind_Ok_inv in Hrun as (methods & s1 & _ & Hrun);
      apply bind_Ok_inv in Hrun as (acc & s2 & _ & Hrun);
      apply store_then_ret in Hrun as [-> ->];
      apply lookup_stored. }
  unfold list_monitors_info, try_except, __cache__get_info. by rewrite Hhit.
Qed.

Lemma list_monitors_info_memoized_witness :
  list_monitors_info Examples.broken_controls None
    (list_monitors_info Examples.two_monitors None init_state).2 =
    (Ok [Examples.benq_wmi; Examples.acme_vcp],
     (list_monitors_info Examples.two_monitors None init_state).2).
Proof.
  apply (list_monitors_info_memoized Examples.two_monitors Examples.broken_controls
           None init_state).
  vm_compute; reflexivity.
Defined.

(** The WMI connection is made once: after [_wmi_init()] has returned,
    later calls return without connecting again (and without another
    [CoInitialize]), and leave the state as it is. *)
Theorem _wmi_init_memoized w w' s s' :
  _wmi_init w s = (Ok tt, s') ->
  _wmi_init w' s' = (Ok tt, s').
Proof.
  intros Hrun.
  assert (cache_lookup "wmi_instance" [] s' = Some CInstance) as Hhit.
  { unfold _wmi_init, try_except, __cache__get_instance in Hrun.
    destruct (cache_lookup _ _ s) as [[| l |]|] eqn:Hs;
      try (injection Hrun as <-; exact Hs);
      unfold cache_miss, raise in Hrun;
      apply bind_Ok_inv in Hrun as ([] & s1 & _ & Hrun);
      apply bind_Ok_inv in Hrun as ([] & s2 & _ & Hrun);
      apply store_then_ret in Hrun as [_ ->];
      apply lookup_stored. }
  unfold _wmi_init, try_except, __cache__get_instance. by rewrite Hhit.
Qed.

Lemma _wmi_init_memoized_witness :
  _wmi_init Examples.broken_controls (_wmi_init Examples.two_monitors init_state).2 =
    (Ok tt, (_wmi_init Examples.two_monitors init_state).2).
Proof.
  apply (_wmi_init_memoized Examples.two_monitors Examples.broken_controls init_state).
  vm_compute; reflexivity.
Defined.
